(** * EcoCollect: a shallow embedding of [server.js]

    The server is an Express application over three MongoDB collections
    (users, pickups, pledges).  Each route handler is embedded as a function
    from the request and the current store to the new store and the HTTP
    response.  The handler bodies run in a small state-and-exception monad so
    that the [try { ... } catch (error) { ... }] wrapper of every route is
    written once, as in the source.

    Modelling conventions.
    - A collection is the list of its documents in natural (insertion) order;
      [findOne] and [findOneAndUpdate] act on the first document that matches.
    - JavaScript numbers are rationals.  Every number the server computes is
      an integer or [k/2] or [5k/4] for a count [k] of stored strings, all of
      which binary64 represents exactly, so the arithmetic is exact.
    - Emails, route parameters and the paths of a pickup or a pledge reach
      a handler already cast to the types of the schemas; the [:id] of a
      route is an [ObjectId].  A password is whatever the body holds, a JSON
      value or nothing, since bcrypt refuses what is not a string.  A pickup
      or pledge body may set [_id] and [createdAt] itself.  The [required]
      validators of the schemas reject the empty string.
    - bcrypt is a parameter: a salted hash function and its comparison, on
      strings.
    - An [ObjectId] the server generates is new: the store carries the next
      one, above every [_id] it has stored.  The unique index on [_id] can
      therefore refuse only an [_id] that the client sent.
    - The store itself is reliable: the only exceptions are the ones the code
      and the schemas raise on their own (validation, duplicate key, null
      dereference, bcrypt's illegal arguments). *)

From Stdlib Require Import ZArith QArith Qround Lia.
From stdpp Require Import base list strings sorting pretty.

Set Warnings "-register-all".

Local Open Scope Z_scope.
Local Open Scope string_scope.

(** ** JavaScript values at the HTTP boundary *)

Inductive Json : Type :=
  | JNull
  | JBool (b : bool)
  | JNum (q : Q)
  | JStr (s : string)
  | JArr (items : list Json)
  | JObj (fields : list (string * Json)).

(** Integers are written as they are; other numbers print in lowest terms. *)
Definition jint (z : Z) : Json := JNum (inject_Z z).
Definition jnum (q : Q) : Json := JNum (Qred q).
Definition jstrs (l : list string) : Json := JArr (JStr <$> l).

(** An optional schema path is left out of the serialised document. *)
Definition jopt (k : string) (o : option string) : list (string * Json) :=
  match o with
  | Some s => [(k, JStr s)]
  | None => []
  end.

Fixpoint jfield (k : string) (fields : list (string * Json)) : option Json :=
  match fields with
  | [] => None
  | (k', v) :: rest => if decide (k' = k) then Some v else jfield k rest
  end.

Definition jget (k : string) (j : Json) : option Json :=
  match j with
  | JObj fields => jfield k fields
  | _ => None
  end.



(** A field of a request body as the handler reads it: a JSON value, or
    [None] ([undefined]) when the body does not have it.  A string is the
    field that holds it. *)
Definition Field : Type := option Json.

Definition sent (s : string) : Field := Some (JStr s).
Coercion sent : string >-> Field.

(** [typeof] *)
Definition typeof (v : Field) : string :=
  match v with
  | None => "undefined"
  | Some (JBool _) => "boolean"
  | Some (JNum _) => "number"
  | Some (JStr _) => "string"
  | Some JNull | Some (JArr _) | Some (JObj _) => "object"
  end.

(** [Math.round]: the nearest integer, a tie going up. *)
Definition Math_round (x : Q) : Z := Qfloor (x + (1 # 2)).

(** [Array.prototype.join] *)
Fixpoint join (sep : string) (l : list string) : string :=
  match l with
  | [] => EmptyString
  | [s] => s
  | s :: rest => s +:+ sep +:+ join sep rest
  end.

(** ** Schemas *)

Definition ObjectId := nat.

Module User.
Record t : Type := mk {
  _id : ObjectId;
  email : string;
  password : string;
  xp : Z;
  streak : Z;
  badges : list string;
  createdAt : Z
}.

(** [$inc: { xp: d }] and [$inc: { streak: d }] *)
Definition inc_xp (d : Z) (u : t) : t :=
  mk (_id u) (email u) (password u) (xp u + d) (streak u) (badges u)
     (createdAt u).

Definition inc_streak (d : Z) (u : t) : t :=
  mk (_id u) (email u) (password u) (xp u) (streak u + d) (badges u)
     (createdAt u).

Definition set_badges (bs : list string) (u : t) : t :=
  mk (_id u) (email u) (password u) (xp u) (streak u) bs (createdAt u).

End User.

Module Pickup.
Record t : Type := mk {
  _id : ObjectId;
  user : string;
  date : option string;
  location : option string;
  pickupType : option string;
  time : option string;
  phone : option string;
  materials : list string;
  notes : option string;
  status : string;
  createdAt : Z
}.

Definition set_status (s : string) (p : t) : t :=
  mk (_id p) (user p) (date p) (location p) (pickupType p) (time p)
     (phone p) (materials p) (notes p) s (createdAt p).

Definition toJSON (p : t) : Json :=
  JObj ([("_id", jint (Z.of_nat (_id p))); ("user", JStr (user p))]
        ++ jopt "date" (date p) ++ jopt "location" (location p)
        ++ jopt "pickupType" (pickupType p) ++ jopt "time" (time p)
        ++ jopt "phone" (phone p)
        ++ [("materials", jstrs (materials p))]
        ++ jopt "notes" (notes p)
        ++ [("status", JStr (status p)); ("createdAt", jint (createdAt p))]).
End Pickup.

Module Pledge.
Record t : Type := mk {
  _id : ObjectId;
  user : string;
  pledge : option string;
  createdAt : Z
}.

Definition toJSON (p : t) : Json :=
  JObj ([("_id", jint (Z.of_nat (_id p))); ("user", JStr (user p))]
        ++ jopt "pledge" (pledge p)
        ++ [("createdAt", jint (createdAt p))]).
End Pledge.

(** The database: the three collections and the next fresh [_id]. *)
Record Store : Type := mkStore {
  users : list User.t;
  pickups : list Pickup.t;
  pledges : list Pledge.t;
  next_id : ObjectId
}.

Definition set_users (us : list User.t) (st : Store) : Store :=
  mkStore us (pickups st) (pledges st) (next_id st).

(** ** Exceptions and the handler monad *)

Inductive JsError : Type :=
  | ValidationError (model : string) (paths : list string)
  | DuplicateKeyError (path value : string)
  | TypeError (text : string)
  | PlainError (text : string).

Definition required_text (path : string) : string :=
  path +:+ ": Path `" +:+ path +:+ "` is required.".

(** [error.message] *)
Definition message (e : JsError) : string :=
  match e with
  | ValidationError model paths =>
      model +:+ " validation failed: " +:+ join ", " (required_text <$> paths)
  | DuplicateKeyError path value =>
      "E11000 duplicate key error: " +:+ path +:+ ": " +:+ value
  | TypeError text => text
  | PlainError text => text
  end.

Inductive Outcome (A : Type) : Type :=
  | Done (a : A)
  | Throw (e : JsError).
Arguments Done {A} a.
Arguments Throw {A} e.

(** A computation runs against the store; what it wrote before an exception
    stays written (there are no transactions). *)
Definition M (A : Type) : Type := Store -> Store * Outcome A.

#[export] Instance M_ret : MRet M := fun A a st => (st, Done a).

#[export] Instance M_bind : MBind M := fun A B f m st =>
  match m st with
  | (st', Done a) => f a st'
  | (st', Throw e) => (st', Throw e)
  end.

Definition throw {A} (e : JsError) : M A := fun st => (st, Throw e).

Definition gets {A} (f : Store -> A) : M A := fun st => (st, Done (f st)).

Definition modify (f : Store -> Store) : M unit := fun st => (f st, Done tt).

Definition when (b : bool) (m : M unit) : M unit :=
  if b then m else mret tt.

(** Reading a property of [null] *)
Definition deref {A} (prop : string) (o : option A) : M A :=
  match o with
  | Some a => mret a
  | None =>
      throw (TypeError
        ("Cannot read properties of null (reading '" +:+ prop +:+ "')"))
  end.

(** ** The collections' operations *)

(** [ObjectId]s are generated when a document is constructed. *)
Definition fresh_id : M ObjectId := fun st =>
  (mkStore (users st) (pickups st) (pledges st) (S (next_id st)),
   Done (next_id st)).

(** A [required] string path fails validation when it is empty. *)
Definition missing (path value : string) : list string :=
  if decide (value = EmptyString) then [path] else [].

Definition validate (model : string) (failed : list string) : M unit :=
  match failed with
  | [] => mret tt
  | _ => throw (ValidationError model failed)
  end.

Module Users.
(** [User.findOne({ email })] *)
Fixpoint findOne (e : string) (us : list User.t) : option User.t :=
  match us with
  | [] => None
  | u :: rest => if decide (User.email u = e) then Some u else findOne e rest
  end.

(** [User.findOneAndUpdate({ email }, update)]: the first match only. *)
Fixpoint findOneAndUpdate (e : string) (f : User.t -> User.t)
    (us : list User.t) : list User.t :=
  match us with
  | [] => []
  | u :: rest =>
      if decide (User.email u = e) then f u :: rest
      else u :: findOneAndUpdate e f rest
  end.

(** [user.save()]: schema validation, then the insert under the unique
    index on [email]. *)
Definition save (u : User.t) : M unit :=
  validate "User"
    (missing "email" (User.email u) ++ missing "password" (User.password u));;
  existing ← gets (fun st => findOne (User.email u) (users st));
  match existing with
  | Some _ => throw (DuplicateKeyError "email" (User.email u))
  | None => modify (fun st => set_users (users st ++ [u]) st)
  end.
End Users.

Module Pickups.
(** [Pickup.find({ user })] *)
Definition find (e : string) (ps : list Pickup.t) : list Pickup.t :=
  filter (fun p => Pickup.user p = e) ps.

Fixpoint findById (id : ObjectId) (ps : list Pickup.t) : option Pickup.t :=
  match ps with
  | [] => None
  | p :: rest => if decide (Pickup._id p = id) then Some p else findById id rest
  end.

Fixpoint updateById (id : ObjectId) (f : Pickup.t -> Pickup.t)
    (ps : list Pickup.t) : list Pickup.t :=
  match ps with
  | [] => []
  | p :: rest =>
      if decide (Pickup._id p = id) then f p :: rest
      else p :: updateById id f rest
  end.

(** [.sort({ createdAt: -1 })] *)
Definition newer (p q : Pickup.t) : Prop :=
  Pickup.createdAt q <= Pickup.createdAt p.

#[global] Instance newer_dec : RelDecision newer.
Proof. intros p q. unfold newer. apply _. Defined.

(** The unique index on [_id]: an [_id] the client sent is refused when a
    stored pickup has it. *)
Definition taken (client_id : option ObjectId) (ps : list Pickup.t) : bool :=
  match client_id with
  | Some id => bool_decide (is_Some (findById id ps))
  | None => false
  end.

(** [pickup.save()]: schema validation, then the insert under the index.
    [client_id] is the [_id] of the request body, if it has one; the next
    [ObjectId] stays above it. *)
Definition save (client_id : option ObjectId) (p : Pickup.t) : M unit :=
  validate "Pickup" (missing "user" (Pickup.user p));;
  refused ← gets (fun st => taken client_id (pickups st));
  if (refused : bool)
  then throw (DuplicateKeyError "_id" (pretty (Pickup._id p)))
  else
    modify (fun st =>
      mkStore (users st) (pickups st ++ [p]) (pledges st)
        match client_id with
        | Some id => Nat.max (next_id st) (S id)
        | None => next_id st
        end).

(** [Pickup.findByIdAndUpdate(id, update, { new: true })] yields the
    document as updated, or [null]. *)
Definition findByIdAndUpdate (id : ObjectId) (f : Pickup.t -> Pickup.t)
    : M (option Pickup.t) := fun st =>
  (mkStore (users st) (updateById id f (pickups st)) (pledges st)
     (next_id st),
   Done (f <$> findById id (pickups st))).
End Pickups.

Module Pledges.
Definition newer (p q : Pledge.t) : Prop :=
  Pledge.createdAt q <= Pledge.createdAt p.

#[global] Instance newer_dec : RelDecision newer.
Proof. intros p q. unfold newer. apply _. Defined.

Fixpoint findById (id : ObjectId) (ps : list Pledge.t) : option Pledge.t :=
  match ps with
  | [] => None
  | p :: rest => if decide (Pledge._id p = id) then Some p else findById id rest
  end.

Definition taken (client_id : option ObjectId) (ps : list Pledge.t) : bool :=
  match client_id with
  | Some id => bool_decide (is_Some (findById id ps))
  | None => false
  end.

(** [pledge.save()]: the schema requires nothing; the insert is under the
    unique index on [_id], as for a pickup. *)
Definition save (client_id : option ObjectId) (p : Pledge.t) : M unit :=
  refused ← gets (fun st => taken client_id (pledges st));
  if (refused : bool)
  then throw (DuplicateKeyError "_id" (pretty (Pledge._id p)))
  else
    modify (fun st =>
      mkStore (users st) (pickups st) (pledges st ++ [p])
        match client_id with
        | Some id => Nat.max (next_id st) (S id)
        | None => next_id st
        end).
End Pledges.

(** [User.findOneAndUpdate] as the handlers call it *)
Definition User_findOneAndUpdate (e : string) (f : User.t -> User.t) : M unit :=
  modify (fun st => set_users (Users.findOneAndUpdate e f (users st)) st).

(** ** The server *)

Record Response : Type := mkResponse { status : Z; body : Json }.

(** What a request finds outside the store: the clock, the salt bcrypt draws,
    and the state of the database connection. *)
Record Env : Type := mkEnv { now : Z; salt : string; readyState : Z }.

Class Bcrypt : Type := {
  bcrypt_hash : string -> Z -> string -> string;
  bcrypt_compare : string -> string -> bool
}.

(** The paths of the body of [POST /api/pickups] other than [_id] and
    [createdAt], cast to the schema. *)
Module PickupReq.
Record t : Type := mk {
  user : string;
  date : option string;
  location : option string;
  pickupType : option string;
  time : option string;
  phone : option string;
  materials : list string;
  notes : option string;
  status : option string
}.
End PickupReq.

Module PledgeReq.
Record t : Type := mk { user : string; pledge : option string }.
End PledgeReq.

(** The whole body of [POST /api/pickups]: the document is built from it, so
    it may also set [_id] and [createdAt]. *)
Module PickupBody.
Record t : Type := mk {
  _id : option ObjectId;
  createdAt : option Z;
  paths : PickupReq.t
}.
End PickupBody.

Module PledgeBody.
Record t : Type := mk {
  _id : option ObjectId;
  createdAt : option Z;
  paths : PledgeReq.t
}.
End PledgeBody.

(** A body that sets neither [_id] nor [createdAt] is its other paths. *)
Definition plain_pickup (b : PickupReq.t) : PickupBody.t :=
  PickupBody.mk None None b.
Coercion plain_pickup : PickupReq.t >-> PickupBody.t.

Definition plain_pledge (b : PledgeReq.t) : PledgeBody.t :=
  PledgeBody.mk None None b.
Coercion plain_pledge : PledgeReq.t >-> PledgeBody.t.

(** [new Pickup(req.body)]: the paths the body sets are taken from it, and
    the schema defaults fill [_id] (with the generated [id]), [status] and
    [createdAt] where it sets none. *)
Definition new_Pickup (env : Env) (id : ObjectId) (b : PickupBody.t) : Pickup.t :=
  let f := PickupBody.paths b in
  Pickup.mk (default id (PickupBody._id b)) (PickupReq.user f)
    (PickupReq.date f) (PickupReq.location f) (PickupReq.pickupType f)
    (PickupReq.time f) (PickupReq.phone f) (PickupReq.materials f)
    (PickupReq.notes f) (default "Scheduled" (PickupReq.status f))
    (default (now env) (PickupBody.createdAt b)).

Definition new_Pledge (env : Env) (id : ObjectId) (b : PledgeBody.t) : Pledge.t :=
  let f := PledgeBody.paths b in
  Pledge.mk (default id (PledgeBody._id b)) (PledgeReq.user f)
    (PledgeReq.pledge f) (default (now env) (PledgeBody.createdAt b)).

Definition say (text : string) : Json := JObj [("message", JStr text)].

Definition server_error (e : JsError) : Response :=
  mkResponse 500
    (JObj [("message", JStr "Server error"); ("error", JStr (message e))]).

(** [try { ... } catch (error) { res.status(500).json(...) }] *)
Definition try_catch (m : M Response) (st : Store) : Store * Response :=
  match m st with
  | (st', Done r) => (st', r)
  | (st', Throw e) => (st', server_error e)
  end.

(** *** Authentication *)

(** [bcrypt.hash(s, rounds)] and [bcrypt.compare(s, hash)] of bcryptjs: what
    is not a string is refused with an exception that names the types of the
    arguments.  A stored hash is a string. *)
Definition bcryptjs_hash `{Bcrypt} (s : Field) (rounds : Z) (salt : string)
    : M string :=
  match s with
  | Some (JStr password) => mret (bcrypt_hash password rounds salt)
  | _ => throw (PlainError ("Illegal arguments: " +:+ typeof s +:+ ", number"))
  end.

Definition bcryptjs_compare `{Bcrypt} (s : Field) (hash : string) : M bool :=
  match s with
  | Some (JStr password) => mret (bcrypt_compare password hash)
  | _ => throw (PlainError ("Illegal arguments: " +:+ typeof s +:+ ", string"))
  end.

Definition register_body `{Bcrypt} (env : Env) (email : string)
    (password : Field) : M Response :=
  existingUser ← gets (fun st => Users.findOne email (users st));
  match existingUser with
  | Some _ => mret (mkResponse 400 (say "User already exists"))
  | None =>
      hashedPassword ← bcryptjs_hash password 10 (salt env);
      id ← fresh_id;
      let user := User.mk id email hashedPassword 0 0 [] (now env) in
      Users.save user;;
      mret (mkResponse 201 (say "User registered successfully"))
  end.

Definition login_body `{Bcrypt} (email : string) (password : Field)
    : M Response :=
  user ← gets (fun st => Users.findOne email (users st));
  match user with
  | None => mret (mkResponse 400 (say "Invalid credentials"))
  | Some user =>
      isMatch ← bcryptjs_compare password (User.password user);
      if negb isMatch then mret (mkResponse 400 (say "Invalid credentials"))
      else
        mret (mkResponse 200
          (JObj [("message", JStr "Login successful");
                 ("user", JObj [("email", JStr (User.email user));
                                ("xp", jint (User.xp user));
                                ("streak", jint (User.streak user));
                                ("badges", jstrs (User.badges user))])]))
  end.

(** *** Pickups *)

Definition post_pickups_body (env : Env) (b : PickupBody.t) : M Response :=
  id ← fresh_id;
  let pickup := new_Pickup env id b in
  Pickups.save (PickupBody._id b) pickup;;
  User_findOneAndUpdate (PickupReq.user (PickupBody.paths b)) (User.inc_xp 10);;
  mret (mkResponse 201
    (JObj [("message", JStr "Pickup scheduled successfully");
           ("pickup", Pickup.toJSON pickup)])).

Definition get_pickups_body (userEmail : string) : M Response :=
  pickups ← gets (fun st =>
    merge_sort Pickups.newer (Pickups.find userEmail (pickups st)));
  mret (mkResponse 200 (JArr (Pickup.toJSON <$> pickups))).

Definition complete_body (id : ObjectId) : M Response :=
  pickup ← Pickups.findByIdAndUpdate id (Pickup.set_status "Completed");
  match pickup with
  | None => mret (mkResponse 404 (say "Pickup not found"))
  | Some pickup =>
      User_findOneAndUpdate (Pickup.user pickup)
        (fun u => User.inc_streak 1 (User.inc_xp 20 u));;
      mret (mkResponse 200
        (JObj [("message", JStr "Pickup marked as completed");
               ("pickup", Pickup.toJSON pickup)]))
  end.

(** *** Pledges *)

Definition post_pledges_body (env : Env) (b : PledgeBody.t) : M Response :=
  id ← fresh_id;
  let pledge := new_Pledge env id b in
  Pledges.save (PledgeBody._id b) pledge;;
  User_findOneAndUpdate (PledgeReq.user (PledgeBody.paths b)) (User.inc_xp 5);;
  mret (mkResponse 201
    (JObj [("message", JStr "Pledge added successfully");
           ("pledge", Pledge.toJSON pledge)])).

Definition get_pledges_body : M Response :=
  pledges ← gets (fun st => take 20 (merge_sort Pledges.newer (pledges st)));
  mret (mkResponse 200 (JArr (Pledge.toJSON <$> pledges))).

(** *** Statistics *)

(** [let n = 0; pickups.forEach(p => n += p.materials.length)] *)
Definition count_materials (pickups : list Pickup.t) : Z :=
  fold_left (fun n p => n + Z.of_nat (length (Pickup.materials p))) pickups 0.

(** [totalWeight = itemsRecycled * 0.5] *)
Definition totalWeight (itemsRecycled : Z) : Q := inject_Z itemsRecycled * (1 # 2).

(** [carbonOffset = Math.round(totalWeight * 2.5)] *)
Definition carbonOffset (totalWeight : Q) : Z := Math_round (totalWeight * (5 # 2)).

(** [Math.round(totalWeight * 10) / 10], the figure put in the response *)
Definition round1 (totalWeight : Q) : Q :=
  inject_Z (Math_round (totalWeight * inject_Z 10)) / inject_Z 10.

(** The three [if (user.xp >= t) badges.push(label)] statements *)
Definition deriveBadges (xp : Z) : list string :=
  let push (c : bool) (label : string) (badges : list string) :=
    if c then (badges ++ [label])%list else badges in
  let badges := [] in
  let badges := push (bool_decide (xp >= 100)) "Plastic Buster" badges in
  let badges := push (bool_decide (xp >= 200)) "Paper Saver" badges in
  let badges := push (bool_decide (xp >= 500)) "Eco Warrior" badges in
  badges.

Definition stats_body (userEmail : string) : M Response :=
  user ← gets (fun st => Users.findOne userEmail (users st));
  pickups ← gets (fun st => Pickups.find userEmail (pickups st));
  let itemsRecycled := count_materials pickups in
  let totalWeight := totalWeight itemsRecycled in
  let carbonOffset := carbonOffset totalWeight in
  user ← deref "xp" user;
  let badges := deriveBadges (User.xp user) in
  when (bool_decide (length (User.badges user) < length badges)%nat)
    (User_findOneAndUpdate userEmail (User.set_badges badges));;
  mret (mkResponse 200
    (JObj [("itemsRecycled", jint itemsRecycled);
           ("totalWeight", jnum (round1 totalWeight));
           ("carbonOffset", jint carbonOffset);
           ("xpEarned", jint (User.xp user));
           ("totalPickups", jint (Z.of_nat (length pickups)));
           ("streakDays", jint (User.streak user));
           ("badgesEarned",
            JStr (if bool_decide (0 < length badges)%nat
                  then join ", " badges else "None"))])).

(** *** Community *)

(** The documents that leave the [$project] stage: [_id] is kept unless it
    is excluded, and the stage names [email], [xp] and [badges]. *)
Module Leader.
Record t : Type := mk {
  _id : ObjectId;
  email : string;
  xp : Z;
  badges : list string
}.

Definition project (u : User.t) : t :=
  mk (User._id u) (User.email u) (User.xp u) (User.badges u).

(** [$sort: { xp: -1 }] *)
Definition higher (a b : t) : Prop := xp b <= xp a.

#[global] Instance higher_dec : RelDecision higher.
Proof. intros a b. unfold higher. apply _. Defined.

Definition toJSON (e : t) : Json :=
  JObj [("_id", jint (Z.of_nat (_id e))); ("email", JStr (email e));
        ("xp", jint (xp e)); ("badges", jstrs (badges e))].

(** [User.aggregate([{ $project }, { $sort }, { $limit: 10 }])] *)
Definition aggregate (us : list User.t) : list t :=
  take 10 (merge_sort higher (project <$> us)).
End Leader.

Definition leaderboard_body : M Response :=
  users ← gets (fun st => Leader.aggregate (users st));
  mret (mkResponse 200 (JArr (Leader.toJSON <$> users))).

Definition goal_body : M Response :=
  pickups ← gets pickups;
  let totalItems := count_materials pickups in
  let totalCarbon := Math_round (inject_Z totalItems * (1 # 2) * (5 # 2)) in
  mret (mkResponse 200 (JObj [("totalCarbon", jint totalCarbon)])).

(** [GET /api/health] has no [try]: nothing in it can throw. *)
Definition health (env : Env) (st : Store) : Store * Response :=
  (st, mkResponse 200
    (JObj [("message", JStr "EcoCollect API is running!");
           ("database",
            JStr (if bool_decide (readyState env = 1)
                  then "Connected" else "Disconnected"))])).

(** *** The routes *)

Inductive Request : Type :=
  | PostRegister (email : string) (password : Field)
  | PostLogin (email : string) (password : Field)
  | PostPickups (b : PickupBody.t)
  | GetPickups (userEmail : string)
  | PutComplete (id : ObjectId)
  | PostPledges (b : PledgeBody.t)
  | GetPledges
  | GetStats (userEmail : string)
  | GetLeaderboard
  | GetGoal
  | GetHealth.

(** The guarded body of each route that has one *)
Definition route_body `{Bcrypt} (env : Env) (req : Request) : option (M Response) :=
  match req with
  | PostRegister email password => Some (register_body env email password)
  | PostLogin email password => Some (login_body email password)
  | PostPickups b => Some (post_pickups_body env b)
  | GetPickups userEmail => Some (get_pickups_body userEmail)
  | PutComplete id => Some (complete_body id)
  | PostPledges b => Some (post_pledges_body env b)
  | GetPledges => Some get_pledges_body
  | GetStats userEmail => Some (stats_body userEmail)
  | GetLeaderboard => Some leaderboard_body
  | GetGoal => Some goal_body
  | GetHealth => None
  end.

Definition handle `{Bcrypt} (env : Env) (req : Request) (st : Store)
    : Store * Response :=
  match route_body env req with
  | Some m => try_catch m st
  | None => health env st
  end.

(** A stand-in for bcrypt, to run the handlers on examples *)
Definition toy_bcrypt : Bcrypt := {|
  bcrypt_hash password rounds salt := "$2a$10$" +:+ password;
  bcrypt_compare password hash := bool_decide (hash = "$2a$10$" +:+ password)
|}.

(** ** The specification's badge table

    The policy as the specification words it: a table of thresholds, every
    row whose threshold the XP reaches contributing its label, in the order
    of the table. *)
Definition spec_badge_table : list (Z * string) :=
  [(100, "Plastic Buster"); (200, "Paper Saver"); (500, "Eco Warrior")].

Definition spec_qualifying (xp : Z) : list (Z * string) :=
  filter (fun row => row.1 <= xp) spec_badge_table.

(** ** Stores that differ in the password hashes only *)


(** ** What the schema and the unique index keep true of the users *)

Definition schema_valid (u : User.t) : Prop :=
  User.email u <> EmptyString /\ User.password u <> EmptyString.

Definition valid_store (st : Store) : Prop :=
  Forall schema_valid (users st) /\ NoDup (User.email <$> users st).

Definition empty_store : Store := mkStore [] [] [] 0%nat.

(** ** Request sequences *)

(** The store after serving the requests in turn, each in its environment. *)
Fixpoint serve `{Bcrypt} (reqs : list (Env * Request)) (st : Store) : Store :=
  match reqs with
  | [] => st
  | (env, req) :: rest => serve rest (handle env req st).1
  end.


(** The store after [n] consecutive [PUT /api/pickups/:id/complete] calls
    for the same [id]. *)
Fixpoint complete_times `{Bcrypt} (env : Env) (id : ObjectId) (n : nat)
    (st : Store) : Store :=
  match n with
  | O => st
  | S n => complete_times env id n (handle env (PutComplete id) st).1
  end.

(** ** Example data *)

Definition env1 : Env := mkEnv 2000 "s" 1.

Definition stats_store : Store :=
  mkStore
    [User.mk 0%nat "ana@eco.org" "$2a$10$pw" 150 2 [] 1000]
    [Pickup.mk 1%nat "ana@eco.org" None None None None None
       ["glass"; "paper"; "tin"] None "Scheduled" 1001;
     Pickup.mk 2%nat "bo@eco.org" None None None None None
       ["steel"] None "Scheduled" 1002;
     Pickup.mk 3%nat "ana@eco.org" None None None None None
       ["plastic"; "card"] None "Completed" 1003]
    [] 4%nat.

Definition tied_store : Store :=
  mkStore
    [User.mk 7%nat "cy@eco.org" "$2a$10$pw" 500 9
       ["Early Bird"; "Paper Saver"; "Founder"] 1000]
    [] [] 8%nat.


Definition member (id : nat) (email : string) (xp : Z) : User.t :=
  User.mk id email "$2a$10$pw" xp 0 [] 1000.

Definition crowd_store : Store :=
  mkStore
    [member 1 "ann@eco.org" 40; member 2 "ben@eco.org" 520;
     member 3 "cat@eco.org" 0; member 4 "dan@eco.org" 130;
     member 5 "eve@eco.org" 75; member 6 "fay@eco.org" 520;
     member 7 "gus@eco.org" 210; member 8 "hal@eco.org" 15;
     member 9 "ida@eco.org" 330; member 10 "jon@eco.org" 5;
     member 11 "kim@eco.org" 90; member 12 "lee@eco.org" 600]
    [] [] 13%nat.

(** ** Notions for the properties of the routes *)

(** [grows u u']: [u'] is the record [u] with counters that did not go down
    and at least as many badges. *)
Definition grows (u u' : User.t) : Prop :=
  User._id u' = User._id u /\
  User.email u' = User.email u /\
  User.password u' = User.password u /\
  User.createdAt u' = User.createdAt u /\
  User.xp u <= User.xp u' /\
  User.streak u <= User.streak u' /\
  (length (User.badges u) <= length (User.badges u'))%nat.

(** Every stored pickup has an [_id] drawn before, and no two share one. *)
Definition ids_fresh (st : Store) : Prop :=
  Forall (fun p => (Pickup._id p < next_id st)%nat) (pickups st) /\
  NoDup (Pickup._id <$> pickups st).

(** An integer field of a response body, if it has one of that name. *)
Definition int_field (k : string) (r : Response) : option Z :=
  match jget k (body r) with
  | Some (JNum q) => Some (Qfloor q)
  | _ => None
  end.

Definition pledge_at (id : nat) (t : Z) : Pledge.t :=
  Pledge.mk id "ana@eco.org" (Some "Refill, not landfill") t.

Definition pledge_store : Store :=
  mkStore []
    [Pickup.mk 1%nat "ana@eco.org" None None None None None ["glass"] None
       "Scheduled" 30;
     Pickup.mk 2%nat "ana@eco.org" None None None None None ["tin"] None
       "Scheduled" 50;
     Pickup.mk 3%nat "bo@eco.org" None None None None None ["card"] None
       "Scheduled" 40]
    [pledge_at 4 7; pledge_at 5 3; pledge_at 6 9; pledge_at 7 1;
     pledge_at 8 12; pledge_at 9 5; pledge_at 10 20; pledge_at 11 2;
     pledge_at 12 15; pledge_at 13 8; pledge_at 14 11; pledge_at 15 4;
     pledge_at 16 18; pledge_at 17 6; pledge_at 18 14; pledge_at 19 10;
     pledge_at 20 22; pledge_at 21 13; pledge_at 22 17; pledge_at 23 16;
     pledge_at 24 21; pledge_at 25 19]
    26%nat.

(** * Properties *)

(** ** Numbers *)

Lemma Math_round_comp (x y : Q) : (x == y)%Q -> Math_round x = Math_round y.
Proof. intros E. unfold Math_round. apply Qfloor_comp. rewrite E. reflexivity. Qed.

Lemma Math_round_inject_Z (z : Z) : Math_round (inject_Z z) = z.
Proof.
  unfold Math_round, Qfloor, Qplus, inject_Z. simpl.
  rewrite Z.mul_1_r. replace (z * 2 + 1) with (1 + z * 2) by lia.
  rewrite Z.div_add by lia. reflexivity.
Qed.

(** [Math.round x] is within one half of [x], and a tie goes up. *)
Lemma Math_round_nearest (x : Q) :
  (x - (1 # 2) < inject_Z (Math_round x) /\
   inject_Z (Math_round x) <= x + (1 # 2))%Q.
Proof.
  unfold Math_round. split.
  - pose proof (Qlt_floor (x + (1 # 2))) as L.
    rewrite inject_Z_plus in L.
    apply (Qplus_lt_l _ _ (1 # 1)).
    eapply Qle_lt_trans; [|exact L].
    ring_simplify. apply Qle_refl.
  - apply Qfloor_le.
Qed.

Lemma count_materials_from (ps : list Pickup.t) (n : Z) :
  fold_left (fun n p => n + Z.of_nat (length (Pickup.materials p))) ps n
  = n + Z.of_nat (sum_list (length ∘ Pickup.materials <$> ps)).
Proof.
  revert n. induction ps as [|p ps IH]; intros n; simpl.
  - lia.
  - rewrite IH. unfold compose, fmap. rewrite Nat2Z.inj_add. lia.
Qed.

Lemma count_materials_sum (ps : list Pickup.t) :
  count_materials ps = Z.of_nat (sum_list (length ∘ Pickup.materials <$> ps)).
Proof. unfold count_materials. rewrite count_materials_from. lia. Qed.

(** Half a kilogram per item has one decimal already. *)
Lemma round1_totalWeight (n : Z) : (round1 (totalWeight n) == totalWeight n)%Q.
Proof.
  unfold round1, totalWeight.
  rewrite (Math_round_comp _ (inject_Z (5 * n))).
  - rewrite Math_round_inject_Z. rewrite inject_Z_mult. field.
  - rewrite inject_Z_mult. field.
Qed.

Lemma carbonOffset_div (n : Z) : carbonOffset (totalWeight n) = (5 * n + 2) / 4.
Proof.
  unfold carbonOffset, totalWeight, Math_round, Qfloor, Qplus, Qmult, inject_Z.
  simpl.
  change (Z.pos (1 * 2 * 2 * 2)) with (4 * 2).
  change (Z.pos (1 * 2 * 2)) with 4.
  replace (n * 1 * 5 * 2 + 1 * 4) with ((5 * n + 2) * 2) by lia.
  rewrite Z.div_mul_cancel_r by lia. reflexivity.
Qed.

(** ** The user collection *)

Section users.
Implicit Types (e : string) (u : User.t) (us : list User.t).

Lemma findOne_email e us u : Users.findOne e us = Some u -> User.email u = e.
Proof.
  induction us as [|v us IH]; simpl; [discriminate|].
  case_decide; [intros [= <-]; assumption | exact IH].
Qed.

Lemma findOne_elem_of e us u : Users.findOne e us = Some u -> u ∈ us.
Proof.
  induction us as [|v us IH]; simpl; [discriminate|].
  case_decide; [intros [= <-]; left | intros E; right; auto].
Qed.

Lemma findOne_app e us vs :
  Users.findOne e (us ++ vs) =
  match Users.findOne e us with Some u => Some u | None => Users.findOne e vs end.
Proof.
  induction us as [|v us IH]; simpl; [reflexivity|].
  case_decide; [reflexivity | exact IH].
Qed.

Lemma findOneAndUpdate_same e (f : User.t -> User.t) us :
  (forall u, User.email (f u) = User.email u) ->
  Users.findOne e (Users.findOneAndUpdate e f us) = f <$> Users.findOne e us.
Proof.
  intros Hf. induction us as [|v us IH]; simpl; [reflexivity|].
  case_decide as E; simpl.
  - rewrite Hf. rewrite decide_True by exact E. reflexivity.
  - rewrite decide_False by exact E. exact IH.
Qed.

Lemma findOneAndUpdate_other e e' (f : User.t -> User.t) us :
  e' <> e ->
  (forall u, User.email (f u) = User.email u) ->
  Users.findOne e' (Users.findOneAndUpdate e f us) = Users.findOne e' us.
Proof.
  intros Hne Hf. induction us as [|v us IH]; simpl; [reflexivity|].
  case_decide as E; simpl.
  - rewrite Hf. rewrite !decide_False by congruence. reflexivity.
  - case_decide; [reflexivity | exact IH].
Qed.

Lemma findOneAndUpdate_absent e (f : User.t -> User.t) us :
  Users.findOne e us = None -> Users.findOneAndUpdate e f us = us.
Proof.
  induction us as [|v us IH]; simpl; [reflexivity|].
  case_decide; [discriminate | intros E; rewrite IH by exact E; reflexivity].
Qed.

Lemma findOneAndUpdate_length e (f : User.t -> User.t) us :
  length (Users.findOneAndUpdate e f us) = length us.
Proof.
  induction us as [|v us IH]; simpl; [reflexivity|].
  case_decide; simpl; congruence.
Qed.

End users.

(** ** Running a handler *)

Ltac run :=
  unfold handle, route_body, try_catch, register_body, login_body,
    post_pickups_body, get_pickups_body, complete_body, post_pledges_body,
    get_pledges_body, stats_body, leaderboard_body, goal_body, health,
    Users.save, Pickups.save, Pledges.save, Pickups.findByIdAndUpdate,
    bcryptjs_hash, bcryptjs_compare, sent,
    plain_pickup, plain_pledge,
    User_findOneAndUpdate, validate, when, deref, fresh_id, gets, modify,
    throw, mbind, M_bind, mret, M_ret;
  cbn [fst snd users pickups pledges next_id set_users status body
       PickupBody._id PickupBody.createdAt PickupBody.paths
       PledgeBody._id PledgeBody.createdAt PledgeBody.paths
       Pickups.taken Pledges.taken].

(** ** Requests whose body is not the plain one *)

Lemma field_string_or_not (p : Field) :
  {s : string | p = sent s} + {forall s : string, p <> sent s}.
Proof.
  destruct p as [[| | |s| |]|]; try (right; intros s'; discriminate).
  left. exists s. reflexivity.
Qed.

Lemma post_pickups_invalid `{Bcrypt} (env : Env) (st : Store) (b : PickupBody.t) :
  PickupReq.user (PickupBody.paths b) = EmptyString ->
  handle env (PostPickups b) st =
    (mkStore (users st) (pickups st) (pledges st) (S (next_id st)),
     server_error (ValidationError "Pickup" ["user"])).
Proof.
  intros He. run. unfold missing. cbn [new_Pickup Pickup.user].
  rewrite decide_True by exact He. reflexivity.
Qed.

Lemma post_pickups_refused `{Bcrypt} (env : Env) (st : Store) (b : PickupBody.t) :
  PickupReq.user (PickupBody.paths b) <> EmptyString ->
  Pickups.taken (PickupBody._id b) (pickups st) = true ->
  handle env (PostPickups b) st =
    (mkStore (users st) (pickups st) (pledges st) (S (next_id st)),
     server_error
       (DuplicateKeyError "_id"
          (pretty (Pickup._id (new_Pickup env (next_id st) b))))).
Proof.
  intros Hne Htaken. run. unfold missing. cbn [new_Pickup Pickup.user].
  rewrite decide_False by exact Hne. cbn [pickups].
  rewrite Htaken. reflexivity.
Qed.

Lemma post_pickups_accepted `{Bcrypt} (env : Env) (st : Store) (b : PickupBody.t) :
  PickupReq.user (PickupBody.paths b) <> EmptyString ->
  Pickups.taken (PickupBody._id b) (pickups st) = false ->
  handle env (PostPickups b) st =
    (mkStore
       (Users.findOneAndUpdate (PickupReq.user (PickupBody.paths b))
          (User.inc_xp 10) (users st))
       (pickups st ++ [new_Pickup env (next_id st) b]) (pledges st)
       match PickupBody._id b with
       | Some id => Nat.max (S (next_id st)) (S id)
       | None => S (next_id st)
       end,
     mkResponse 201
       (JObj [("message", JStr "Pickup scheduled successfully");
              ("pickup", Pickup.toJSON (new_Pickup env (next_id st) b))])).
Proof.
  intros Hne Hfree. run. unfold missing. cbn [new_Pickup Pickup.user].
  rewrite decide_False by exact Hne. cbn [pickups].
  rewrite Hfree. reflexivity.
Qed.

Lemma post_pledges_refused `{Bcrypt} (env : Env) (st : Store) (b : PledgeBody.t) :
  Pledges.taken (PledgeBody._id b) (pledges st) = true ->
  handle env (PostPledges b) st =
    (mkStore (users st) (pickups st) (pledges st) (S (next_id st)),
     server_error
       (DuplicateKeyError "_id"
          (pretty (Pledge._id (new_Pledge env (next_id st) b))))).
Proof.
  intros Htaken. run. cbn [pledges].
  rewrite Htaken. reflexivity.
Qed.

Lemma post_pledges_accepted `{Bcrypt} (env : Env) (st : Store) (b : PledgeBody.t) :
  Pledges.taken (PledgeBody._id b) (pledges st) = false ->
  handle env (PostPledges b) st =
    (mkStore
       (Users.findOneAndUpdate (PledgeReq.user (PledgeBody.paths b))
          (User.inc_xp 5) (users st))
       (pickups st) (pledges st ++ [new_Pledge env (next_id st) b])
       match PledgeBody._id b with
       | Some id => Nat.max (S (next_id st)) (S id)
       | None => S (next_id st)
       end,
     mkResponse 201
       (JObj [("message", JStr "Pledge added successfully");
              ("pledge", Pledge.toJSON (new_Pledge env (next_id st) b))])).
Proof.
  intros Hfree. run. cbn [pledges].
  rewrite Hfree. reflexivity.
Qed.

Lemma register_taken `{Bcrypt} (env : Env) (st : Store) (e : string)
    (pw : Field) (u : User.t) :
  Users.findOne e (users st) = Some u ->
  handle env (PostRegister e pw) st =
    (st, mkResponse 400 (say "User already exists")).
Proof. intros Hu. run. rewrite Hu. reflexivity. Qed.

Lemma register_illegal `{Bcrypt} (env : Env) (st : Store) (e : string)
    (pw : Field) :
  Users.findOne e (users st) = None ->
  (forall s : string, pw <> sent s) ->
  handle env (PostRegister e pw) st =
    (st, server_error
           (PlainError ("Illegal arguments: " +:+ typeof pw +:+ ", number"))).
Proof.
  intros Hu Hns. run. rewrite Hu.
  destruct pw as [[| | |s| |]|]; try reflexivity.
  exfalso. exact (Hns s eq_refl).
Qed.

Lemma login_unknown `{Bcrypt} (env : Env) (st : Store) (e : string) (pw : Field) :
  Users.findOne e (users st) = None ->
  handle env (PostLogin e pw) st =
    (st, mkResponse 400 (say "Invalid credentials")).
Proof. intros Hu. run. rewrite Hu. reflexivity. Qed.

Lemma login_illegal `{Bcrypt} (env : Env) (st : Store) (e : string) (pw : Field)
    (u : User.t) :
  Users.findOne e (users st) = Some u ->
  (forall s : string, pw <> sent s) ->
  handle env (PostLogin e pw) st =
    (st, server_error
           (PlainError ("Illegal arguments: " +:+ typeof pw +:+ ", string"))).
Proof.
  intros Hu Hns. run. rewrite Hu.
  destruct pw as [[| | |s| |]|]; try reflexivity.
  exfalso. exact (Hns s eq_refl).
Qed.

Lemma login_known `{Bcrypt} (env : Env) (st : Store) (e pw : string) (u : User.t) :
  Users.findOne e (users st) = Some u ->
  handle env (PostLogin e pw) st =
    (st,
     if bcrypt_compare pw (User.password u)
     then mkResponse 200
            (JObj [("message", JStr "Login successful");
                   ("user", JObj [("email", JStr (User.email u));
                                  ("xp", jint (User.xp u));
                                  ("streak", jint (User.streak u));
                                  ("badges", jstrs (User.badges u))])])
     else mkResponse 400 (say "Invalid credentials")).
Proof.
  intros Hu. run. rewrite Hu.
  destruct (bcrypt_compare pw (User.password u)); reflexivity.
Qed.

Lemma register_fresh `{Bcrypt} (env : Env) (st : Store) (e pw : string) :
  Users.findOne e (users st) = None ->
  let hashedPassword := bcrypt_hash pw 10 (salt env) in
  let user := User.mk (next_id st) e hashedPassword 0 0 [] (now env) in
  handle env (PostRegister e pw) st =
    match (missing "email" e ++ missing "password" hashedPassword)%list with
    | [] =>
        (mkStore (users st ++ [user]) (pickups st) (pledges st)
           (S (next_id st)),
         mkResponse 201 (say "User registered successfully"))
    | failed =>
        (mkStore (users st) (pickups st) (pledges st) (S (next_id st)),
         server_error (ValidationError "User" failed))
    end.
Proof.
  intros Hu hashedPassword user. run. rewrite Hu.
  cbn [User.email User.password]. fold hashedPassword.
  destruct (missing "email" e ++ missing "password" hashedPassword)%list;
    [|reflexivity].
  cbn [users]. rewrite Hu. reflexivity.
Qed.

(** Case analysis on what a request meets *)

Ltac register_cases env st email password :=
  let u := fresh "u" in
  let Hu := fresh "Hu" in
  let s := fresh "s" in
  let Hns := fresh "Hns" in
  destruct (Users.findOne email (users st)) as [u|] eqn:Hu;
  [ rewrite (register_taken env st email password u Hu)
  | destruct (field_string_or_not password) as [[s ->]|Hns];
    [ rewrite (register_fresh env st email s Hu)
    | rewrite (register_illegal env st email password Hu Hns) ] ].

Ltac login_cases env st email password :=
  let u := fresh "u" in
  let Hu := fresh "Hu" in
  let s := fresh "s" in
  let Hns := fresh "Hns" in
  destruct (Users.findOne email (users st)) as [u|] eqn:Hu;
  [ destruct (field_string_or_not password) as [[s ->]|Hns];
    [ rewrite (login_known env st email s u Hu)
    | rewrite (login_illegal env st email password u Hu Hns) ]
  | rewrite (login_unknown env st email password Hu) ].

Ltac pickups_cases env st b :=
  let He := fresh "He" in
  let Ht := fresh "Ht" in
  destruct (decide (PickupReq.user (PickupBody.paths b) = EmptyString))
    as [He|He];
  [ rewrite (post_pickups_invalid env st b He)
  | destruct (Pickups.taken (PickupBody._id b) (pickups st)) eqn:Ht;
    [ rewrite (post_pickups_refused env st b He Ht)
    | rewrite (post_pickups_accepted env st b He Ht) ] ].

Ltac pledges_cases env st b :=
  let Ht := fresh "Ht" in
  destruct (Pledges.taken (PledgeBody._id b) (pledges st)) eqn:Ht;
  [ rewrite (post_pledges_refused env st b Ht)
  | rewrite (post_pledges_accepted env st b Ht) ].

(** ** Statistics *)

Lemma stats_found `{Bcrypt} (env : Env) (st : Store) (e : string) (u : User.t) :
  Users.findOne e (users st) = Some u ->
  let ps := Pickups.find e (pickups st) in
  let fresh := deriveBadges (User.xp u) in
  handle env (GetStats e) st =
    (if bool_decide (length (User.badges u) < length fresh)%nat
     then set_users (Users.findOneAndUpdate e (User.set_badges fresh) (users st)) st
     else st,
     mkResponse 200
       (JObj [("itemsRecycled", jint (count_materials ps));
              ("totalWeight", jnum (round1 (totalWeight (count_materials ps))));
              ("carbonOffset", jint (carbonOffset (totalWeight (count_materials ps))));
              ("xpEarned", jint (User.xp u));
              ("totalPickups", jint (Z.of_nat (length ps)));
              ("streakDays", jint (User.streak u));
              ("badgesEarned",
               JStr (if bool_decide (0 < length fresh)%nat
                     then join ", " fresh else "None"))])).
Proof.
  intros Hu ps fresh. run. rewrite Hu. fold ps fresh.
  destruct (bool_decide (length (User.badges u) < length fresh)%nat); reflexivity.
Qed.

(** C1. The impact figures of a stats response: [itemsRecycled] is the sum of
    the material counts of the user's pickups, [totalWeight] is that count
    times 0.5 (which rounding to one decimal leaves as it is), and
    [carbonOffset] is [Math.round] of the weight times 2.5, the nearest
    integer with a tie going up, that is [(5 items + 2) / 4] rounded down. *)
Theorem stats_impact `{Bcrypt} (env : Env) (st : Store) (userEmail : string)
    (u : User.t) :
  Users.findOne userEmail (users st) = Some u ->
  let given := Pickups.find userEmail (pickups st) in
  let items := Z.of_nat (sum_list (length ∘ Pickup.materials <$> given)) in
  let stats := body (handle env (GetStats userEmail) st).2 in
  exists (totalWeightKg : Q) (carbonOffsetKg : Z),
    jget "itemsRecycled" stats = Some (jint items) /\
    jget "totalWeight" stats = Some (JNum totalWeightKg) /\
    jget "carbonOffset" stats = Some (jint carbonOffsetKg) /\
    (totalWeightKg == inject_Z items * (1 # 2))%Q /\
    (totalWeightKg == round1 (inject_Z items * (1 # 2)))%Q /\
    carbonOffsetKg = Math_round (totalWeightKg * (5 # 2)) /\
    carbonOffsetKg = (5 * items + 2) / 4 /\
    (totalWeightKg * (5 # 2) - (1 # 2) < inject_Z carbonOffsetKg /\
     inject_Z carbonOffsetKg <= totalWeightKg * (5 # 2) + (1 # 2))%Q.
Proof.
  intros Hu given items stats.
  assert (Hw : forall n, (Qred (round1 (totalWeight n)) == inject_Z n * (1 # 2))%Q).
  { intros n. rewrite Qred_correct. apply round1_totalWeight. }
  assert (Hc : forall n, carbonOffset (totalWeight n)
                         = Math_round (Qred (round1 (totalWeight n)) * (5 # 2))).
  { intros n. unfold carbonOffset. apply Math_round_comp.
    rewrite Hw. reflexivity. }
  subst stats. rewrite (stats_found env st userEmail u Hu).
  cbn [snd body]. fold given.
  rewrite count_materials_sum. fold items.
  exists (Qred (round1 (totalWeight items))), (carbonOffset (totalWeight items)).
  split; [reflexivity|]. split; [reflexivity|]. split; [reflexivity|].
  split; [apply Hw|].
  split; [rewrite Hw; symmetry; apply round1_totalWeight|].
  split; [apply Hc|].
  split; [apply carbonOffset_div|].
  rewrite Hc. apply Math_round_nearest.
Qed.

Lemma stats_impact_witness :
  exists (totalWeightKg : Q) (carbonOffsetKg : Z),
    let stats :=
      body (handle (H := toy_bcrypt) env1 (GetStats "ana@eco.org")
              stats_store).2 in
    jget "itemsRecycled" stats = Some (jint 5) /\
    jget "totalWeight" stats = Some (JNum totalWeightKg) /\
    jget "carbonOffset" stats = Some (jint carbonOffsetKg) /\
    (totalWeightKg == 5 # 2)%Q /\ carbonOffsetKg = 6.
Proof.
  destruct (stats_impact (H := toy_bcrypt) env1 stats_store
              "ana@eco.org"
              (User.mk 0%nat "ana@eco.org" "$2a$10$pw" 150 2 [] 1000) eq_refl)
    as (w & c & Hi & Hw & Hc & Ew & _ & _ & Ec & _).
  exists w, c. cbn zeta. split; [exact Hi|]. split; [exact Hw|].
  split; [exact Hc|]. split; [exact Ew|].
  rewrite Ec. reflexivity.
Defined.

(** ** Badges *)

Lemma deriveBadges_spec (xp : Z) : deriveBadges xp = (spec_qualifying xp).*2.
Proof.
  unfold deriveBadges, spec_qualifying, spec_badge_table.
  rewrite !filter_cons, filter_nil. cbn [fst].
  repeat case_bool_decide; repeat case_decide; try lia; reflexivity.
Qed.

(** C3. [deriveBadges] depends on the XP alone: its value at 50, 100, 200 and
    500; each label is present exactly when its own threshold is reached; and
    at every XP the result lists the qualifying rows of the table in the
    table's order, thresholds ascending. *)
Theorem deriveBadges_thresholds :
  deriveBadges 50 = [] /\
  deriveBadges 100 = ["Plastic Buster"] /\
  deriveBadges 200 = ["Plastic Buster"; "Paper Saver"] /\
  deriveBadges 500 = ["Plastic Buster"; "Paper Saver"; "Eco Warrior"] /\
  forall xp : Z,
    ("Plastic Buster" ∈ deriveBadges xp <-> xp >= 100) /\
    ("Paper Saver" ∈ deriveBadges xp <-> xp >= 200) /\
    ("Eco Warrior" ∈ deriveBadges xp <-> xp >= 500) /\
    deriveBadges xp = (spec_qualifying xp).*2 /\
    StronglySorted Z.lt (spec_qualifying xp).*1.
Proof.
  repeat (split; [reflexivity|]).
  intros xp.
  assert (Hsorted : StronglySorted Z.lt (spec_qualifying xp).*1).
  { unfold spec_qualifying, spec_badge_table.
    rewrite !filter_cons, filter_nil. cbn [fst].
    repeat case_decide; cbn [fmap list_fmap fst];
      repeat (constructor; [|repeat constructor; lia]); constructor. }
  split_and!; [| | |apply deriveBadges_spec|exact Hsorted];
    unfold deriveBadges; repeat case_bool_decide;
    rewrite ?elem_of_cons, ?elem_of_nil; cbn [app];
    rewrite ?elem_of_cons, ?elem_of_nil; split; intros; try lia; try tauto;
    repeat match goal with H : _ \/ _ |- _ => destruct H end;
    try discriminate; try tauto.
Qed.

(** C4. Reconciliation compares counts only.  A stats request replaces the
    stored badges by the freshly derived ones when, and only when, there are
    strictly more fresh badges than stored ones; otherwise the store is left
    as it is, whatever the stored badges are. *)
Theorem badge_reconciliation `{Bcrypt} (env : Env) (st : Store) (e : string)
    (u : User.t) :
  Users.findOne e (users st) = Some u ->
  let fresh := deriveBadges (User.xp u) in
  let st' := (handle env (GetStats e) st).1 in
  ((length (User.badges u) < length fresh)%nat ->
     Users.findOne e (users st') =
       Some (User.mk (User._id u) (User.email u) (User.password u) (User.xp u)
               (User.streak u) fresh (User.createdAt u)) /\
     (forall e', e' <> e ->
        Users.findOne e' (users st') = Users.findOne e' (users st)) /\
     pickups st' = pickups st /\ pledges st' = pledges st) /\
  (~ (length (User.badges u) < length fresh)%nat -> st' = st) /\
  (User.badges <$> Users.findOne e (users st') <> Some (User.badges u) <->
     (length (User.badges u) < length fresh)%nat) /\
  (User.badges u = [] -> User.xp u = 150 ->
     User.badges <$> Users.findOne e (users st') = Some ["Plastic Buster"]) /\
  (length (User.badges u) = length fresh -> st' = st).
Proof.
  intros Hu fresh st'.
  assert (Hgt : (length (User.badges u) < length fresh)%nat ->
            Users.findOne e (users st') = Some (User.set_badges fresh u) /\
            (forall e', e' <> e ->
               Users.findOne e' (users st') = Users.findOne e' (users st)) /\
            pickups st' = pickups st /\ pledges st' = pledges st).
  { intros Hlt. subst st'. rewrite (stats_found env st e u Hu).
    fold fresh. rewrite bool_decide_eq_true_2 by exact Hlt.
    cbn [fst users pickups pledges set_users]. split_and!; try reflexivity.
    - rewrite findOneAndUpdate_same by reflexivity. rewrite Hu. reflexivity.
    - intros e' Hne. apply findOneAndUpdate_other; [exact Hne | reflexivity]. }
  assert (Hle : ~ (length (User.badges u) < length fresh)%nat -> st' = st).
  { intros Hge. subst st'. rewrite (stats_found env st e u Hu).
    fold fresh. rewrite bool_decide_eq_false_2 by exact Hge. reflexivity. }
  split_and!.
  - exact Hgt.
  - exact Hle.
  - split.
    + intros Hchanged.
      destruct (decide (length (User.badges u) < length fresh)%nat) as [|Hge];
        [assumption|].
      exfalso. apply Hchanged. rewrite (Hle Hge), Hu. reflexivity.
    + intros Hlt Hsame. destruct (Hgt Hlt) as [Hnew _].
      rewrite Hnew in Hsame. cbn in Hsame. injection Hsame as Hsame.
      rewrite Hsame in Hlt. lia.
  - intros Hnone Hxp.
    assert (Hfresh : fresh = ["Plastic Buster"]) by (subst fresh; rewrite Hxp; reflexivity).
    destruct Hgt as [Hnew _]; [rewrite Hnone, Hfresh; simpl; lia|].
    rewrite Hnew, Hfresh. reflexivity.
  - intros Heq. apply Hle. lia.
Qed.

Lemma badge_reconciliation_witness :
  User.badges <$>
    Users.findOne "ana@eco.org"
      (users (handle (H := toy_bcrypt) env1
                (GetStats "ana@eco.org") stats_store).1)
    = Some ["Plastic Buster"] /\
  (handle (H := toy_bcrypt) env1 (GetStats "cy@eco.org")
     tied_store).1 = tied_store.
Proof.
  split.
  - apply (badge_reconciliation (H := toy_bcrypt) env1
             stats_store "ana@eco.org"
             (User.mk 0%nat "ana@eco.org" "$2a$10$pw" 150 2 [] 1000) eq_refl);
      reflexivity.
  - apply (badge_reconciliation (H := toy_bcrypt) env1
             tied_store "cy@eco.org"
             (User.mk 7%nat "cy@eco.org" "$2a$10$pw" 500 9
                ["Early Bird"; "Paper Saver"; "Founder"] 1000) eq_refl).
    reflexivity.
Defined.

(** ** Failures *)

(** C5. A stats request for an email with no user reads a property of
    [null]; the route's [catch] turns that exception, as it turns every
    exception a guarded route body raises, into a 500 response with a message
    and the cause.  The response is not a 404, and every request is
    answered. *)
Theorem stats_missing_user `{Bcrypt} (env : Env) (st : Store) (e : string) :
  Users.findOne e (users st) = None ->
  handle env (GetStats e) st =
    (st, mkResponse 500
           (JObj [("message", JStr "Server error");
                  ("error",
                   JStr "Cannot read properties of null (reading 'xp')")])) /\
  status (handle env (GetStats e) st).2 <> 404 /\
  (forall (req : Request) (m : M Response) (st0 st1 : Store) (err : JsError),
     route_body env req = Some m ->
     m st0 = (st1, Throw err) ->
     handle env req st0 =
       (st1, mkResponse 500
               (JObj [("message", JStr "Server error");
                      ("error", JStr (message err))]))) /\
  (forall (req : Request) (st0 : Store),
     route_body env req = None ->
     (handle env req st0).1 = st0 /\ status (handle env req st0).2 = 200).
Proof.
  intros Hu.
  assert (E : handle env (GetStats e) st =
    (st, mkResponse 500
           (JObj [("message", JStr "Server error");
                  ("error",
                   JStr "Cannot read properties of null (reading 'xp')")]))).
  { run. rewrite Hu. reflexivity. }
  split_and!.
  - exact E.
  - rewrite E. discriminate.
  - intros req m st0 st1 err Hm Hthrow.
    unfold handle, try_catch. rewrite Hm, Hthrow. reflexivity.
  - intros req st0 Hm. unfold handle. rewrite Hm. split; reflexivity.
Qed.

Lemma stats_missing_user_witness :
  handle (H := toy_bcrypt) env1 (GetStats "nobody@eco.org")
    stats_store =
    (stats_store,
     mkResponse 500
       (JObj [("message", JStr "Server error");
              ("error",
               JStr "Cannot read properties of null (reading 'xp')")])).
Proof.
  apply (stats_missing_user (H := toy_bcrypt) env1 stats_store
           "nobody@eco.org" eq_refl).
Defined.

(** ** Community goal *)

(** C6. The community goal is the rounding of 0.5 x 2.5 x the number of
    materials of all the pickups in the store: the response is
    [{ totalCarbon }] alone, with [totalCarbon] the integer nearest to five
    quarters of that number, a tie going up, which is [(5 total + 2) / 4]
    rounded down.  The status of a pickup plays no part. *)
Theorem community_goal `{Bcrypt} (env : Env) (st : Store) :
  let total := Z.of_nat (sum_list (length ∘ Pickup.materials <$> pickups st)) in
  exists totalCarbon : Z,
    handle env GetGoal st =
      (st, mkResponse 200 (JObj [("totalCarbon", jint totalCarbon)])) /\
    totalCarbon = Math_round ((1 # 2) * (5 # 2) * inject_Z total) /\
    totalCarbon = (5 * total + 2) / 4 /\
    5 * total - 2 < 4 * totalCarbon <= 5 * total + 2 /\
    ((1 # 2) * (5 # 2) * inject_Z total - (1 # 2) < inject_Z totalCarbon /\
     inject_Z totalCarbon <= (1 # 2) * (5 # 2) * inject_Z total + (1 # 2))%Q /\
    forall restatus : Pickup.t -> string,
      (handle env GetGoal
         (mkStore (users st)
            ((fun p => Pickup.set_status (restatus p) p) <$> pickups st)
            (pledges st) (next_id st))).2
      = (handle env GetGoal st).2.
Proof.
  intros total.
  exists (Math_round ((1 # 2) * (5 # 2) * inject_Z total)).
  assert (Hdiv : Math_round ((1 # 2) * (5 # 2) * inject_Z total)
                 = (5 * total + 2) / 4).
  { rewrite <- carbonOffset_div. unfold carbonOffset, totalWeight.
    apply Math_round_comp. ring. }
  split_and!.
  - run. rewrite count_materials_sum. fold total.
    rewrite (Math_round_comp _ ((1 # 2) * (5 # 2) * inject_Z total)) by ring.
    reflexivity.
  - reflexivity.
  - exact Hdiv.
  - rewrite Hdiv.
    pose proof (Z.div_mod (5 * total + 2) 4 ltac:(lia)).
    pose proof (Z.mod_pos_bound (5 * total + 2) 4 ltac:(lia)). lia.
  - rewrite Hdiv.
    pose proof (Z.div_mod (5 * total + 2) 4 ltac:(lia)).
    pose proof (Z.mod_pos_bound (5 * total + 2) 4 ltac:(lia)). lia.
  - apply Math_round_nearest.
  - apply Math_round_nearest.
  - intros restatus. run.
    rewrite !count_materials_sum, <- list_fmap_compose. reflexivity.
Qed.

(** On the example store, six materials: 7.5 is rounded to 8. *)
Lemma community_goal_witness :
  handle (H := toy_bcrypt) env1 GetGoal stats_store =
    (stats_store, mkResponse 200 (JObj [("totalCarbon", jint 8)])).
Proof.
  destruct (community_goal (H := toy_bcrypt) env1 stats_store)
    as (c & Hres & _ & Hdiv & _).
  rewrite Hres, Hdiv. reflexivity.
Defined.

(** ** XP awards *)

Section pickups.
Implicit Types (id : ObjectId) (p : Pickup.t) (ps : list Pickup.t).

Lemma findById_updateById id (f : Pickup.t -> Pickup.t) ps :
  (forall p, Pickup._id (f p) = Pickup._id p) ->
  Pickups.findById id (Pickups.updateById id f ps) = f <$> Pickups.findById id ps.
Proof.
  intros Hf. induction ps as [|q ps IH]; simpl; [reflexivity|].
  case_decide as E; simpl.
  - rewrite Hf. rewrite decide_True by exact E. reflexivity.
  - rewrite decide_False by exact E. exact IH.
Qed.

End pickups.

Lemma post_pickups_ok `{Bcrypt} (env : Env) (st : Store) (b : PickupReq.t) :
  PickupReq.user b <> EmptyString ->
  handle env (PostPickups b) st =
    (mkStore
       (Users.findOneAndUpdate (PickupReq.user b) (User.inc_xp 10) (users st))
       (pickups st ++ [new_Pickup env (next_id st) b]) (pledges st)
       (S (next_id st)),
     mkResponse 201
       (JObj [("message", JStr "Pickup scheduled successfully");
              ("pickup", Pickup.toJSON (new_Pickup env (next_id st) b))])).
Proof.
  intros Hne. run. unfold missing. cbn [new_Pickup Pickup.user].
  rewrite decide_False by exact Hne. reflexivity.
Qed.

Lemma complete_found `{Bcrypt} (env : Env) (st : Store) (id : ObjectId)
    (p : Pickup.t) :
  Pickups.findById id (pickups st) = Some p ->
  handle env (PutComplete id) st =
    (mkStore
       (Users.findOneAndUpdate (Pickup.user p)
          (fun u => User.inc_streak 1 (User.inc_xp 20 u)) (users st))
       (Pickups.updateById id (Pickup.set_status "Completed") (pickups st))
       (pledges st) (next_id st),
     mkResponse 200
       (JObj [("message", JStr "Pickup marked as completed");
              ("pickup", Pickup.toJSON (Pickup.set_status "Completed" p))])).
Proof. intros Hp. run. rewrite Hp. reflexivity. Qed.

Lemma post_pledges_ok `{Bcrypt} (env : Env) (st : Store) (b : PledgeReq.t) :
  handle env (PostPledges b) st =
    (mkStore
       (Users.findOneAndUpdate (PledgeReq.user b) (User.inc_xp 5) (users st))
       (pickups st) (pledges st ++ [new_Pledge env (next_id st) b])
       (S (next_id st)),
     mkResponse 201
       (JObj [("message", JStr "Pledge added successfully");
              ("pledge", Pledge.toJSON (new_Pledge env (next_id st) b))])).
Proof. run. reflexivity. Qed.

(** Completing the same pickup [n] times in a row *)
Lemma complete_repeat `{Bcrypt} (env : Env) (id : ObjectId) (e : string)
    (n : nat) (st : Store) (p : Pickup.t) (u : User.t) :
  Pickups.findById id (pickups st) = Some p ->
  Pickup.user p = e ->
  Users.findOne e (users st) = Some u ->
  Users.findOne e (users (complete_times env id n st)) =
    Some (User.mk (User._id u) (User.email u) (User.password u)
            (User.xp u + 20 * Z.of_nat n) (User.streak u + Z.of_nat n)
            (User.badges u) (User.createdAt u)).
Proof.
  revert st p u. induction n as [|n IH]; intros st p u Hp He Hu.
  - simpl. rewrite Hu. destruct u; cbn. do 2 f_equal; lia.
  - cbn [complete_times]. rewrite (complete_found env st id p Hp). cbn [fst].
    rewrite (IH _ (Pickup.set_status "Completed" p)
               (User.inc_streak 1 (User.inc_xp 20 u))).
    + destruct u; cbn. do 2 f_equal; lia.
    + cbn [pickups]. rewrite findById_updateById by reflexivity.
      rewrite Hp. reflexivity.
    + exact He.
    + cbn [users]. rewrite He, findOneAndUpdate_same by reflexivity.
      rewrite Hu. reflexivity.
Qed.

(** C2. For a user in the store: scheduling a pickup of theirs adds exactly
    10 to their XP and changes nothing else of any user; completing a pickup
    of theirs adds 20 XP and 1 to the streak, every call again ([n] calls on
    the one pickup add [20 n] and [n]); a pledge of theirs adds 5 XP. *)
Theorem xp_awards `{Bcrypt} (env : Env) (st : Store) (e : string) (u : User.t) :
  Users.findOne e (users st) = Some u ->
  let stored (st' : Store) (xp' streak' : Z) :=
    Users.findOne e (users st') =
      Some (User.mk (User._id u) (User.email u) (User.password u) xp' streak'
              (User.badges u) (User.createdAt u)) /\
    forall e', e' <> e ->
      Users.findOne e' (users st') = Users.findOne e' (users st) in
  (e <> EmptyString ->
   forall b : PickupReq.t, PickupReq.user b = e ->
     stored (handle env (PostPickups b) st).1 (User.xp u + 10) (User.streak u)) /\
  (forall (id : ObjectId) (p : Pickup.t),
     Pickups.findById id (pickups st) = Some p -> Pickup.user p = e ->
     stored (handle env (PutComplete id) st).1
       (User.xp u + 20) (User.streak u + 1) /\
     forall n : nat,
       Users.findOne e (users (complete_times env id n st)) =
         Some (User.mk (User._id u) (User.email u) (User.password u)
                 (User.xp u + 20 * Z.of_nat n) (User.streak u + Z.of_nat n)
                 (User.badges u) (User.createdAt u))) /\
  (forall b : PledgeReq.t, PledgeReq.user b = e ->
     stored (handle env (PostPledges b) st).1 (User.xp u + 5) (User.streak u)).
Proof.
  intros Hu stored.
  assert (Hother : forall (f : User.t -> User.t) e',
            (forall v, User.email (f v) = User.email v) -> e' <> e ->
            Users.findOne e' (Users.findOneAndUpdate e f (users st))
            = Users.findOne e' (users st)).
  { intros f e' Hf He'. apply findOneAndUpdate_other; assumption. }
  split_and!.
  - intros Hne b Hb. subst stored. cbn beta.
    rewrite post_pickups_ok by congruence. cbn [fst users]. rewrite Hb. split.
    + rewrite findOneAndUpdate_same by reflexivity. rewrite Hu. reflexivity.
    + intros e' He'. apply Hother; [reflexivity | exact He'].
  - intros id p Hp He.
    split; [|intros n; exact (complete_repeat env id e n st p u Hp He Hu)].
    subst stored. cbn beta.
    rewrite (complete_found env st id p Hp). cbn [fst users]. rewrite He. split.
    + rewrite findOneAndUpdate_same by reflexivity. rewrite Hu. reflexivity.
    + intros e' He'. apply Hother; [reflexivity | exact He'].
  - intros b Hb. subst stored. cbn beta.
    rewrite post_pledges_ok. cbn [fst users]. rewrite Hb. split.
    + rewrite findOneAndUpdate_same by reflexivity. rewrite Hu. reflexivity.
    + intros e' He'. apply Hother; [reflexivity | exact He'].
Qed.

Lemma xp_awards_witness :
  let ana := User.mk 0%nat "ana@eco.org" "$2a$10$pw" 150 2 [] 1000 in
  let after req :=
    Users.findOne "ana@eco.org"
      (users (handle (H := toy_bcrypt) env1 req stats_store).1) in
  after (PostPickups (PickupReq.mk "ana@eco.org" None None None None None
                        ["glass"] None None))
    = Some (User.mk 0%nat "ana@eco.org" "$2a$10$pw" 160 2 [] 1000) /\
  after (PutComplete 3%nat)
    = Some (User.mk 0%nat "ana@eco.org" "$2a$10$pw" 170 3 [] 1000) /\
  Users.findOne "ana@eco.org"
    (users (complete_times (H := toy_bcrypt) env1 3%nat 2 stats_store))
    = Some (User.mk 0%nat "ana@eco.org" "$2a$10$pw" 190 4 [] 1000) /\
  after (PostPledges (PledgeReq.mk "ana@eco.org" (Some "No more bags")))
    = Some (User.mk 0%nat "ana@eco.org" "$2a$10$pw" 155 2 [] 1000).
Proof.
  intros ana after.
  destruct (xp_awards (H := toy_bcrypt) env1 stats_store "ana@eco.org" ana
              eq_refl) as (Hschedule & Hcomplete & Hpledge).
  split_and!.
  - apply Hschedule; [discriminate | reflexivity].
  - apply (Hcomplete 3%nat
             (Pickup.mk 3%nat "ana@eco.org" None None None None None
                ["plastic"; "card"] None "Completed" 1003));
      reflexivity.
  - apply (Hcomplete 3%nat
             (Pickup.mk 3%nat "ana@eco.org" None None None None None
                ["plastic"; "card"] None "Completed" 1003) eq_refl eq_refl).
  - apply Hpledge. reflexivity.
Defined.

(** ** Leaderboard *)

#[local] Instance higher_total : Total Leader.higher.
Proof. intros a b. unfold Leader.higher. lia. Qed.

#[local] Instance higher_trans : Transitive Leader.higher.
Proof. intros a b c. unfold Leader.higher. lia. Qed.

(** C7. The leaderboard is the projection of the users to [_id], [email],
    [xp] and [badges], in descending order of XP and cut to ten entries:
    what is returned together with what is cut off is a rearrangement of all
    the projected users, and nothing cut off has more XP than an entry
    returned.  Every entry carries the [_id], email, XP and badges of a
    stored user. *)
Theorem leaderboard_top10 `{Bcrypt} (env : Env) (st : Store) :
  exists top rest : list Leader.t,
    handle env GetLeaderboard st =
      (st, mkResponse 200 (JArr (Leader.toJSON <$> top))) /\
    top ++ rest ≡ₚ Leader.project <$> users st /\
    (length top <= 10)%nat /\
    length top = Nat.min 10 (length (users st)) /\
    StronglySorted (fun a b => Leader.xp b <= Leader.xp a) top /\
    (forall a b, a ∈ top -> b ∈ rest -> Leader.xp b <= Leader.xp a) /\
    (forall a, a ∈ top ->
       (exists u, u ∈ users st /\
          Leader._id a = User._id u /\ Leader.email a = User.email u /\
          Leader.xp a = User.xp u /\ Leader.badges a = User.badges u) /\
       jget "email" (Leader.toJSON a) = Some (JStr (Leader.email a)) /\
       jget "xp" (Leader.toJSON a) = Some (jint (Leader.xp a)) /\
       jget "badges" (Leader.toJSON a) = Some (jstrs (Leader.badges a))).
Proof.
  pose (sorted := merge_sort Leader.higher (Leader.project <$> users st)).
  assert (Hperm : sorted ≡ₚ Leader.project <$> users st)
    by apply merge_sort_Permutation.
  assert (Hsorted : StronglySorted Leader.higher (take 10 sorted ++ drop 10 sorted)).
  { rewrite take_drop. apply StronglySorted_merge_sort; apply _. }
  apply StronglySorted_app in Hsorted as (Hcross & Htop & _).
  exists (take 10 sorted), (drop 10 sorted). split_and!.
  - reflexivity.
  - rewrite take_drop. exact Hperm.
  - rewrite length_take. lia.
  - rewrite length_take. rewrite Hperm, length_fmap. reflexivity.
  - exact Htop.
  - exact Hcross.
  - intros a Hin. split; [|split_and!; reflexivity].
    apply subseteq_take in Hin. rewrite Hperm in Hin.
    apply list_elem_of_fmap in Hin as (u & -> & Hu).
    exists u. split_and!; [exact Hu | reflexivity ..].
Qed.

Lemma leaderboard_top10_witness :
  exists top rest : list Leader.t,
    (handle (H := toy_bcrypt) env1 GetLeaderboard crowd_store).2 =
      mkResponse 200 (JArr (Leader.toJSON <$> top)) /\
    length top = 10%nat /\
    (forall a b, a ∈ top -> b ∈ rest -> Leader.xp b <= Leader.xp a).
Proof.
  destruct (leaderboard_top10 (H := toy_bcrypt) env1 crowd_store)
    as (top & rest & Hres & _ & _ & Hlen & _ & Hcut & _).
  exists top, rest. split_and!.
  - rewrite Hres. reflexivity.
  - rewrite Hlen. reflexivity.
  - exact Hcut.
Defined.

(** ** Registration and login *)

Lemma register_created `{Bcrypt} (env : Env) (st : Store) (e pw : string) :
  status (handle env (PostRegister e pw) st).2 = 201 ->
  Users.findOne e (users (handle env (PostRegister e pw) st).1) =
    Some (User.mk (next_id st) e (bcrypt_hash pw 10 (salt env)) 0 0 []
            (now env)).
Proof.
  destruct (Users.findOne e (users st)) as [u|] eqn:Hu.
  - rewrite (register_taken env st e pw u Hu). discriminate.
  - rewrite (register_fresh env st e pw Hu).
    destruct (missing "email" e ++ missing "password" _)%list;
      [|discriminate].
    intros _. cbn [fst users]. rewrite findOne_app, Hu. cbn.
    rewrite decide_True by reflexivity. reflexivity.
Qed.

(** C8. Registering an email that is already in the store is answered with
    400 "User already exists" and leaves the whole store, the first user's
    record included, as it was; so a second registration after a successful
    first one fails and the record the first one created stays. *)
Theorem register_twice `{Bcrypt} (env env' : Env) (st : Store) (e pw pw' : string) :
  (forall u : User.t,
     Users.findOne e (users st) = Some u ->
     handle env (PostRegister e pw) st =
       (st, mkResponse 400 (say "User already exists"))) /\
  (status (handle env (PostRegister e pw) st).2 = 201 ->
   let st1 := (handle env (PostRegister e pw) st).1 in
   let first :=
     User.mk (next_id st) e (bcrypt_hash pw 10 (salt env)) 0 0 [] (now env) in
   Users.findOne e (users st1) = Some first /\
   handle env' (PostRegister e pw') st1 =
     (st1, mkResponse 400 (say "User already exists")) /\
   Users.findOne e (users (handle env' (PostRegister e pw') st1).1) =
     Some first).
Proof.
  split.
  - intros u Hu. exact (register_taken env st e pw u Hu).
  - intros Hok st1 first.
    assert (Hfirst : Users.findOne e (users st1) = Some first)
      by exact (register_created env st e pw Hok).
    split_and!.
    + exact Hfirst.
    + exact (register_taken env' st1 e pw' first Hfirst).
    + rewrite (register_taken env' st1 e pw' first Hfirst). exact Hfirst.
Qed.

Lemma register_twice_witness :
  let st1 :=
    (handle (H := toy_bcrypt) env1 (PostRegister "dee@eco.org" "hunter2")
       stats_store).1 in
  Users.findOne "dee@eco.org" (users st1) =
    Some (User.mk 4%nat "dee@eco.org" "$2a$10$hunter2" 0 0 [] 2000) /\
  handle (H := toy_bcrypt) (mkEnv 3000 "t" 1)
    (PostRegister "dee@eco.org" "other") st1 =
    (st1, mkResponse 400 (say "User already exists")) /\
  handle (H := toy_bcrypt) env1 (PostRegister "ana@eco.org" "x") stats_store =
    (stats_store, mkResponse 400 (say "User already exists")).
Proof.
  intros st1.
  destruct (register_twice (H := toy_bcrypt) env1 (mkEnv 3000 "t" 1)
              stats_store "dee@eco.org" "hunter2" "other") as [_ Hsecond].
  destruct (Hsecond eq_refl) as (Hfirst & Hagain & _).
  split_and!; [exact Hfirst | exact Hagain |].
  apply (proj1 (register_twice (H := toy_bcrypt) env1 env1 stats_store
                  "ana@eco.org" "x" "x")
           (User.mk 0%nat "ana@eco.org" "$2a$10$pw" 150 2 [] 1000) eq_refl).
Defined.

(** C9. The login route answers a wrong password and an unknown email
    alike, but not a password that is no string: bcrypt then refuses its
    arguments, and it is asked only when the email has a user.  Such a login
    is answered 500, with bcrypt's message, exactly when the email exists,
    and 400 "Invalid credentials" when it does not: the response tells
    which. *)
Theorem login_reveals_email `{Bcrypt} (env : Env) (st : Store) (e : string)
    (password : Field) :
  (forall s : string, password <> sent s) ->
  let r := (handle env (PostLogin e password) st).2 in
  (handle env (PostLogin e password) st).1 = st /\
  (forall u, Users.findOne e (users st) = Some u ->
     r = mkResponse 500
           (JObj [("message", JStr "Server error");
                  ("error",
                   JStr ("Illegal arguments: " +:+ typeof password
                         +:+ ", string"))])) /\
  (Users.findOne e (users st) = None ->
     r = mkResponse 400 (say "Invalid credentials")) /\
  (status r = 500 <-> is_Some (Users.findOne e (users st))).
Proof.
  intros Hns r. subst r.
  destruct (Users.findOne e (users st)) as [u|] eqn:Hu.
  - rewrite (login_illegal env st e password u Hu Hns). split_and!.
    + reflexivity.
    + intros v _. reflexivity.
    + discriminate.
    + split; [intros _; eexists; reflexivity | reflexivity].
  - rewrite (login_unknown env st e password Hu). split_and!.
    + reflexivity.
    + discriminate.
    + reflexivity.
    + split; [discriminate | intros [v [=]]].
Qed.

(** A body without a password, for a stored email and for an unknown one *)
Lemma login_reveals_email_witness :
  handle (H := toy_bcrypt) env1 (PostLogin "ana@eco.org" None) stats_store =
    (stats_store,
     mkResponse 500
       (JObj [("message", JStr "Server error");
              ("error", JStr "Illegal arguments: undefined, string")])) /\
  handle (H := toy_bcrypt) env1 (PostLogin "nobody@eco.org" None) stats_store =
    (stats_store, mkResponse 400 (say "Invalid credentials")).
Proof.
  split.
  - destruct (login_reveals_email (H := toy_bcrypt) env1 stats_store
                "ana@eco.org" None ltac:(discriminate))
      as (Hst & Hknown & _).
    rewrite (surjective_pairing (handle env1 (PostLogin "ana@eco.org" None)
                                   stats_store)).
    rewrite Hst.
    rewrite (Hknown (User.mk 0%nat "ana@eco.org" "$2a$10$pw" 150 2 [] 1000)
               eq_refl).
    reflexivity.
  - destruct (login_reveals_email (H := toy_bcrypt) env1 stats_store
                "nobody@eco.org" None ltac:(discriminate))
      as (Hst & _ & Hunknown & _).
    rewrite (surjective_pairing (handle env1 (PostLogin "nobody@eco.org" None)
                                   stats_store)).
    rewrite Hst, (Hunknown eq_refl). reflexivity.
Defined.

(** X20. For a password that is a string, a login that fails is answered
    with 400 "Invalid credentials", the same response for a wrong password
    as for an email that is not in the store; whatever the store, the email
    and the password string, a login response that is not the success
    response is this one response. *)
Theorem login_failure_generic `{Bcrypt} (env env' : Env) (st st' : Store)
    (e e' pw pw' : string) (u : User.t) :
  Users.findOne e (users st) = Some u ->
  bcrypt_compare pw (User.password u) = false ->
  Users.findOne e' (users st') = None ->
  handle env (PostLogin e pw) st =
    (st, mkResponse 400 (say "Invalid credentials")) /\
  handle env' (PostLogin e' pw') st' =
    (st', mkResponse 400 (say "Invalid credentials")) /\
  (handle env (PostLogin e pw) st).2 = (handle env' (PostLogin e' pw') st').2 /\
  (forall (env0 : Env) (st0 : Store) (e0 pw0 : string),
     status (handle env0 (PostLogin e0 pw0) st0).2 <> 200 ->
     (handle env0 (PostLogin e0 pw0) st0).2 =
       mkResponse 400 (say "Invalid credentials")).
Proof.
  intros Hu Hwrong Hnone.
  assert (E1 : handle env (PostLogin e pw) st =
                 (st, mkResponse 400 (say "Invalid credentials"))).
  { run. rewrite Hu, Hwrong. reflexivity. }
  assert (E2 : handle env' (PostLogin e' pw') st' =
                 (st', mkResponse 400 (say "Invalid credentials"))).
  { run. rewrite Hnone. reflexivity. }
  split_and!; [exact E1 | exact E2 | rewrite E1, E2; reflexivity |].
  intros env0 st0 e0 pw0. run.
  destruct (Users.findOne e0 (users st0)) as [v|]; [|reflexivity].
  destruct (bcrypt_compare pw0 (User.password v)); cbn; [|reflexivity].
  intros Hstatus. exfalso. apply Hstatus. reflexivity.
Qed.

Lemma login_failure_generic_witness :
  (handle (H := toy_bcrypt) env1 (PostLogin "ana@eco.org" "guess")
     stats_store).2
  = (handle (H := toy_bcrypt) env1 (PostLogin "nobody@eco.org" "guess")
       stats_store).2.
Proof.
  destruct (login_failure_generic (H := toy_bcrypt) env1 env1 stats_store
              stats_store "ana@eco.org" "nobody@eco.org" "guess" "guess"
              (User.mk 0%nat "ana@eco.org" "$2a$10$pw" 150 2 [] 1000)
              eq_refl eq_refl eq_refl) as (_ & _ & Hsame & _).
  exact Hsame.
Defined.

(** ** What a response shows of a user *)










(** ** The store stays valid *)

Lemma findOneAndUpdate_emails (e : string) (f : User.t -> User.t)
    (us : list User.t) :
  (forall u, User.email (f u) = User.email u) ->
  User.email <$> Users.findOneAndUpdate e f us = User.email <$> us.
Proof.
  intros Hf. induction us as [|v us IH]; [reflexivity|].
  cbn [Users.findOneAndUpdate]. case_decide; rewrite !fmap_cons.
  - rewrite Hf. reflexivity.
  - rewrite IH. reflexivity.
Qed.

Lemma findOneAndUpdate_Forall (P : User.t -> Prop) (e : string)
    (f : User.t -> User.t) (us : list User.t) :
  (forall u, P u -> P (f u)) ->
  Forall P us -> Forall P (Users.findOneAndUpdate e f us).
Proof.
  intros Hf. induction 1 as [|v us Hv Hus IH]; [constructor|].
  cbn [Users.findOneAndUpdate]. case_decide; constructor; auto.
Qed.

Lemma findOne_None_fresh (e : string) (us : list User.t) :
  Users.findOne e us = None -> e ∉ User.email <$> us.
Proof.
  induction us as [|v us IH]; cbn [Users.findOne].
  - intros _. apply not_elem_of_nil.
  - case_decide as E; [discriminate|]. intros Hnone.
    rewrite fmap_cons, not_elem_of_cons. split; [congruence | auto].
Qed.

Lemma valid_store_update (e : string) (f : User.t -> User.t) (st : Store)
    (ps : list Pickup.t) (qs : list Pledge.t) (n : ObjectId) :
  (forall u, User.email (f u) = User.email u) ->
  (forall u, User.password (f u) = User.password u) ->
  valid_store st ->
  valid_store (mkStore (Users.findOneAndUpdate e f (users st)) ps qs n).
Proof.
  intros Hemail Hpw [Hvalid Hnodup]. split; cbn [users].
  - apply findOneAndUpdate_Forall; [|exact Hvalid].
    intros u [? ?]. split; [rewrite Hemail | rewrite Hpw]; assumption.
  - rewrite findOneAndUpdate_emails by exact Hemail. exact Hnodup.
Qed.

Lemma handle_valid `{Bcrypt} (env : Env) (req : Request) (st : Store) :
  valid_store st -> valid_store (handle env req st).1.
Proof.
  intros Hv. destruct req.
  - register_cases env st email password; try exact Hv.
    unfold missing.
    repeat case_decide; cbn [app fst]; try exact Hv.
    destruct Hv as [Hvalid Hnodup]. split; cbn [users].
    + apply Forall_app. split; [exact Hvalid|].
      constructor; [split; assumption | constructor].
    + rewrite fmap_app. apply NoDup_app. split_and!.
      * exact Hnodup.
      * intros x Hx Hin. apply list_elem_of_singleton in Hin. subst x.
        exact (findOne_None_fresh _ _ Hu Hx).
      * apply NoDup_singleton.
  - login_cases env st email password; exact Hv.
  - pickups_cases env st b; cbn [fst]; try exact Hv.
    apply valid_store_update; [reflexivity .. | exact Hv].
  - exact Hv.
  - run. destruct (Pickups.findById id (pickups st)) as [p|]; cbn [fst].
    + apply valid_store_update; [reflexivity .. | exact Hv].
    + exact Hv.
  - pledges_cases env st b; cbn [fst]; try exact Hv.
    apply valid_store_update; [reflexivity .. | exact Hv].
  - exact Hv.
  - destruct (Users.findOne userEmail (users st)) as [u|] eqn:Hu.
    + rewrite (stats_found env st userEmail u Hu).
      case_bool_decide; cbn [fst]; [|exact Hv].
      destruct st. apply (valid_store_update _ _ _ _ _ _); [reflexivity .. | exact Hv].
    + run. rewrite Hu. exact Hv.
  - exact Hv.
  - exact Hv.
  - exact Hv.
Qed.

(** Every store the server can reach from the empty one is valid; in such a
    store a user's email is not empty. *)
Lemma serve_valid `{Bcrypt} (reqs : list (Env * Request)) (st : Store) :
  valid_store st -> valid_store (serve reqs st).
Proof.
  revert st. induction reqs as [|[env req] reqs IH]; intros st Hv;
    [exact Hv|].
  cbn [serve]. apply IH, handle_valid, Hv.
Qed.

Lemma reachable_valid `{Bcrypt} (reqs : list (Env * Request)) :
  valid_store (serve reqs empty_store).
Proof. apply serve_valid. split; constructor. Qed.

Lemma valid_store_email (st : Store) (e : string) (u : User.t) :
  valid_store st -> Users.findOne e (users st) = Some u -> e <> EmptyString.
Proof.
  intros [Hvalid _] Hu. rewrite <- (findOne_email e _ u Hu).
  apply findOne_elem_of in Hu.
  rewrite Forall_forall in Hvalid. exact (proj1 (Hvalid u Hu)).
Qed.

(** * Further lemmas on the collections *)

Lemma updateById_absent (id : ObjectId) (f : Pickup.t -> Pickup.t)
    (ps : list Pickup.t) :
  Pickups.findById id ps = None -> Pickups.updateById id f ps = ps.
Proof.
  induction ps as [|q ps IH]; [reflexivity|].
  cbn [Pickups.findById Pickups.updateById].
  case_decide; [discriminate | intros E; rewrite IH by exact E; reflexivity].
Qed.

Lemma updateById_length (id : ObjectId) (f : Pickup.t -> Pickup.t)
    (ps : list Pickup.t) :
  length (Pickups.updateById id f ps) = length ps.
Proof.
  induction ps as [|q ps IH]; [reflexivity|].
  cbn [Pickups.updateById]. case_decide; cbn [length]; congruence.
Qed.

Lemma findById_updateById_other (id id' : ObjectId) (f : Pickup.t -> Pickup.t)
    (ps : list Pickup.t) :
  id' <> id ->
  (forall p, Pickup._id (f p) = Pickup._id p) ->
  Pickups.findById id' (Pickups.updateById id f ps) = Pickups.findById id' ps.
Proof.
  intros Hne Hf. induction ps as [|q ps IH]; [reflexivity|].
  cbn [Pickups.updateById]. case_decide as E; cbn [Pickups.findById].
  - rewrite Hf. rewrite !decide_False by congruence. reflexivity.
  - case_decide; [reflexivity | exact IH].
Qed.

Lemma findById_elem_of (id : ObjectId) (ps : list Pickup.t) (p : Pickup.t) :
  Pickups.findById id ps = Some p -> p ∈ ps /\ Pickup._id p = id.
Proof.
  induction ps as [|q ps IH]; cbn [Pickups.findById]; [discriminate|].
  case_decide as E.
  - intros [= <-]. split; [left | exact E].
  - intros Hp. destruct (IH Hp). split; [right; assumption | assumption].
Qed.

Lemma findById_app (id : ObjectId) (ps qs : list Pickup.t) :
  Pickups.findById id (ps ++ qs) =
  match Pickups.findById id ps with
  | Some p => Some p
  | None => Pickups.findById id qs
  end.
Proof.
  induction ps as [|q ps IH]; [reflexivity|].
  cbn [app Pickups.findById]. case_decide; [reflexivity | exact IH].
Qed.

Lemma findById_fresh (id : ObjectId) (ps : list Pickup.t) :
  Forall (fun p => (Pickup._id p < id)%nat) ps -> Pickups.findById id ps = None.
Proof.
  induction 1 as [|q ps Hq _ IH]; [reflexivity|].
  cbn [Pickups.findById]. rewrite decide_False by lia. exact IH.
Qed.

Lemma complete_absent `{Bcrypt} (env : Env) (st : Store) (id : ObjectId) :
  Pickups.findById id (pickups st) = None ->
  handle env (PutComplete id) st =
    (st, mkResponse 404 (say "Pickup not found")).
Proof.
  intros Hp. run. rewrite Hp, (updateById_absent _ _ _ Hp).
  destruct st. reflexivity.
Qed.

(** * Further properties of the routes *)

(** ** Users are kept, unique and valid *)

Lemma NoDup_fmap_eq {A B} (f : A -> B) (l : list A) (x y : A) :
  NoDup (f <$> l) -> x ∈ l -> y ∈ l -> f x = f y -> x = y.
Proof.
  intros Hnd [i Hi]%list_elem_of_lookup [j Hj]%list_elem_of_lookup Hf.
  assert (i = j) as ->.
  { apply (NoDup_lookup (f <$> l) i j (f x)); [exact Hnd | |].
    - rewrite list_lookup_fmap, Hi. reflexivity.
    - rewrite list_lookup_fmap, Hj, Hf. reflexivity. }
  congruence.
Qed.

(** X1. The users of a valid store have a non-empty email and password hash
    and pairwise different emails; every request keeps a valid store valid,
    so every store reached from the empty one is valid, and in a valid store
    the user [findOne] returns is the only one with that email. *)
Theorem store_stays_valid `{Bcrypt} :
  (forall env req st, valid_store st -> valid_store (handle env req st).1) /\
  (forall reqs, valid_store (serve reqs empty_store)) /\
  (forall st e u,
     valid_store st -> Users.findOne e (users st) = Some u ->
     e <> EmptyString /\ User.password u <> EmptyString /\
     forall v, v ∈ users st -> User.email v = e -> v = u).
Proof.
  split_and!.
  - intros env req st. apply handle_valid.
  - intros reqs. apply serve_valid. split; constructor.
  - intros st e u Hv Hu. split_and!.
    + exact (valid_store_email st e u Hv Hu).
    + destruct Hv as [Hvalid _]. rewrite Forall_forall in Hvalid.
      exact (proj2 (Hvalid u (findOne_elem_of e _ u Hu))).
    + intros v Hin He. destruct Hv as [_ Hnodup].
      apply (NoDup_fmap_eq User.email (users st)); [assumption .. | |].
      * exact (findOne_elem_of e _ u Hu).
      * rewrite He. symmetry. exact (findOne_email e _ u Hu).
Qed.

Lemma store_stays_valid_witness :
  valid_store
    (handle (H := toy_bcrypt) env1 (PostRegister "dee@eco.org" "hunter2")
       (serve (H := toy_bcrypt)
          [(env1, PostRegister "ana@eco.org" "pw");
           (env1, PostRegister "ana@eco.org" "again");
           (env1, PostPledges (PledgeReq.mk "ana@eco.org" None))]
          empty_store)).1.
Proof.
  destruct (store_stays_valid (H := toy_bcrypt)) as (Hstep & Hreach & _).
  apply Hstep. apply Hreach.
Defined.

(** What a request can do to the user collection: nothing, append one user
    whose email was free, or update the first user with some email by a
    function under which that user grows. *)
Lemma users_after `{Bcrypt} (env : Env) (req : Request) (st : Store) :
  let us' := users (handle env req st).1 in
  us' = users st \/
  (exists new, Users.findOne (User.email new) (users st) = None /\
               us' = (users st ++ [new])%list) \/
  (exists e f, us' = Users.findOneAndUpdate e f (users st) /\
               (forall v, User.email (f v) = User.email v) /\
               (forall v, Users.findOne e (users st) = Some v -> grows v (f v))).
Proof.
  assert (Hinc : forall d v, 0 <= d -> grows v (User.inc_xp d v)).
  { intros d v Hd. unfold grows. cbn. split_and!; try reflexivity; lia. }
  cbn zeta. destruct req.
  - register_cases env st email password; try (left; reflexivity).
    destruct (missing "email" email ++ missing "password" _)%list.
    + right. left. eexists. split; [|reflexivity]. exact Hu.
    + left. reflexivity.
  - left. login_cases env st email password; reflexivity.
  - pickups_cases env st b; cbn [fst users]; try (left; reflexivity).
    right. right. exists (PickupReq.user (PickupBody.paths b)), (User.inc_xp 10).
    split_and!; [reflexivity | reflexivity |]. intros v _. apply Hinc. lia.
  - left. reflexivity.
  - run. destruct (Pickups.findById id (pickups st)) as [p|]; cbn [fst users];
      [|left; reflexivity].
    right. right.
    exists (Pickup.user (Pickup.set_status "Completed" p)),
      (fun u => User.inc_streak 1 (User.inc_xp 20 u)).
    split_and!; [reflexivity | reflexivity |].
    intros v _. unfold grows. cbn. split_and!; try reflexivity; lia.
  - pledges_cases env st b; cbn [fst users]; try (left; reflexivity).
    right. right. exists (PledgeReq.user (PledgeBody.paths b)), (User.inc_xp 5).
    split_and!; [reflexivity | reflexivity |]. intros v _. apply Hinc. lia.
  - left. reflexivity.
  - destruct (Users.findOne userEmail (users st)) as [u|] eqn:Hu.
    + rewrite (stats_found env st userEmail u Hu).
      case_bool_decide as Hlt; cbn [fst users set_users]; [|left; reflexivity].
      right. right. exists userEmail, (User.set_badges (deriveBadges (User.xp u))).
      split_and!; [reflexivity | reflexivity |].
      intros v Hv. assert (v = u) as -> by congruence.
      unfold grows. cbn. split_and!; try reflexivity; lia.
    + left. run. rewrite Hu. reflexivity.
  - left. reflexivity.
  - left. reflexivity.
  - left. reflexivity.
Qed.

(** X2. No route removes a user or takes anything from one: a user found by
    email before a request is found by it afterwards, with the same [_id],
    email, password hash and creation time, and with XP, streak and number of
    badges at least what they were. *)
Theorem users_persist `{Bcrypt} (env : Env) (req : Request) (st : Store)
    (e : string) (u : User.t) :
  Users.findOne e (users st) = Some u ->
  exists u', Users.findOne e (users (handle env req st).1) = Some u' /\
             grows u u'.
Proof.
  intros Hu.
  assert (Hrefl : grows u u) by (unfold grows; split_and!; reflexivity || lia).
  destruct (users_after env req st) as [-> | [(new & _ & ->) | (e0 & f & -> & Hf & Hg)]].
  - exists u. split; [exact Hu | exact Hrefl].
  - exists u. split; [|exact Hrefl]. rewrite findOne_app, Hu. reflexivity.
  - destruct (decide (e = e0)) as [<-|Hne].
    + exists (f u). split; [|exact (Hg u Hu)].
      rewrite findOneAndUpdate_same by exact Hf. rewrite Hu. reflexivity.
    + exists u. split; [|exact Hrefl].
      rewrite findOneAndUpdate_other by assumption. exact Hu.
Qed.

Lemma users_persist_witness :
  exists u',
    Users.findOne "ana@eco.org"
      (users (handle (H := toy_bcrypt) env1 (PutComplete 1%nat) stats_store).1)
      = Some u' /\
    150 <= User.xp u' /\ User.password u' = "$2a$10$pw".
Proof.
  destruct (users_persist (H := toy_bcrypt) env1 (PutComplete 1%nat)
              stats_store "ana@eco.org"
              (User.mk 0%nat "ana@eco.org" "$2a$10$pw" 150 2 [] 1000) eq_refl)
    as (u' & Hfound & _ & _ & Hpw & _ & Hxp & _).
  exists u'. split_and!; [exact Hfound | exact Hxp | exact Hpw].
Defined.

(** ** What each route writes *)

(** X3. Login, the two listings, the leaderboard, the community goal and the
    health check leave the store as it is; registration writes no pickup or
    pledge; scheduling writes no pledge; completion writes no pledge, draws
    no identifier and keeps the number of pickups; a pledge writes no pickup;
    a stats request writes nothing but users. *)
Theorem write_footprint `{Bcrypt} (env : Env) (req : Request) (st : Store) :
  let st' := (handle env req st).1 in
  match req with
  | PostLogin _ _ | GetPickups _ | GetPledges | GetLeaderboard | GetGoal
  | GetHealth => st' = st
  | PostRegister _ _ => pickups st' = pickups st /\ pledges st' = pledges st
  | PostPickups _ => pledges st' = pledges st
  | PutComplete _ =>
      pledges st' = pledges st /\ next_id st' = next_id st /\
      length (pickups st') = length (pickups st)
  | PostPledges _ => pickups st' = pickups st
  | GetStats _ =>
      pickups st' = pickups st /\ pledges st' = pledges st /\
      next_id st' = next_id st /\ length (users st') = length (users st)
  end.
Proof.
  cbn zeta. destruct req; try reflexivity.
  - register_cases env st email password; try (split; reflexivity).
    destruct (missing "email" email ++ missing "password" _)%list;
      split; reflexivity.
  - login_cases env st email password; reflexivity.
  - pickups_cases env st b; reflexivity.
  - destruct (Pickups.findById id (pickups st)) as [p|] eqn:Hp.
    + rewrite (complete_found env st id p Hp).
      cbn [fst pickups pledges next_id]. rewrite updateById_length.
      split_and!; reflexivity.
    + rewrite (complete_absent env st id Hp). split_and!; reflexivity.
  - pledges_cases env st b; reflexivity.
  - destruct (Users.findOne userEmail (users st)) as [u|] eqn:Hu.
    + rewrite (stats_found env st userEmail u Hu).
      case_bool_decide; cbn [fst users pickups pledges next_id set_users];
        rewrite ?findOneAndUpdate_length; split_and!; reflexivity.
    + run. rewrite Hu. split_and!; reflexivity.
Qed.

(** ** Registration *)

(** X4. After a registration of a free, non-empty email the new account
    starts from nothing and is the one a login meets: the registration is
    answered 201, and a later login with that email succeeds exactly when
    bcrypt accepts the offered password against the hash made at
    registration, answering with XP 0, streak 0 and no badges. *)
Theorem register_then_login `{Bcrypt} (env env' : Env) (st : Store)
    (e pw : string) :
  Users.findOne e (users st) = None ->
  e <> EmptyString ->
  bcrypt_hash pw 10 (salt env) <> EmptyString ->
  let st1 := (handle env (PostRegister e pw) st).1 in
  status (handle env (PostRegister e pw) st).2 = 201 /\
  forall pw' : string,
    handle env' (PostLogin e pw') st1 =
      (st1,
       if bcrypt_compare pw' (bcrypt_hash pw 10 (salt env))
       then mkResponse 200
              (JObj [("message", JStr "Login successful");
                     ("user", JObj [("email", JStr e); ("xp", jint 0);
                                    ("streak", jint 0);
                                    ("badges", JArr [])])])
       else mkResponse 400 (say "Invalid credentials")).
Proof.
  intros Hfree He Hhash st1. subst st1.
  rewrite (register_fresh env st e pw Hfree). unfold missing.
  rewrite !decide_False by assumption. cbn [app fst snd status].
  split; [reflexivity|]. intros pw'. run.
  rewrite findOne_app, Hfree. cbn [Users.findOne User.email].
  rewrite decide_True by reflexivity. cbn [User.password].
  destruct (bcrypt_compare pw' _); reflexivity.
Qed.

Lemma register_then_login_witness :
  let st1 :=
    (handle (H := toy_bcrypt) env1 (PostRegister "dee@eco.org" "hunter2")
       stats_store).1 in
  status (handle (H := toy_bcrypt) env1 (PostLogin "dee@eco.org" "hunter2")
            st1).2 = 200 /\
  status (handle (H := toy_bcrypt) env1 (PostLogin "dee@eco.org" "hunter3")
            st1).2 = 400.
Proof.
  intros st1.
  destruct (register_then_login (H := toy_bcrypt) env1 env1 stats_store
              "dee@eco.org" "hunter2" eq_refl) as [_ Hlogin];
    [discriminate | discriminate |].
  split.
  - fold st1 in Hlogin. rewrite (Hlogin "hunter2"). reflexivity.
  - fold st1 in Hlogin. rewrite (Hlogin "hunter3"). reflexivity.
Defined.

(** X5. A registration is answered 201 exactly when the email is free and
    neither it nor the hash is empty; then one user is appended, with XP 0,
    streak 0, no badges and the hash as password.  It is answered 400
    exactly when the email is taken.  Unless it is answered 201 it leaves
    the users, the pickups and the pledges as they were. *)
Theorem register_outcome `{Bcrypt} (env : Env) (st : Store) (e pw : string) :
  let st' := (handle env (PostRegister e pw) st).1 in
  let r := (handle env (PostRegister e pw) st).2 in
  let hashedPassword := bcrypt_hash pw 10 (salt env) in
  (status r = 201 <->
     Users.findOne e (users st) = None /\ e <> EmptyString /\
     hashedPassword <> EmptyString) /\
  (status r = 400 <-> is_Some (Users.findOne e (users st))) /\
  (status r = 201 \/ status r = 400 \/
   status r = 500 /\ jget "message" (body r) = Some (JStr "Server error")) /\
  (status r = 201 ->
     users st' =
       (users st ++
        [User.mk (next_id st) e hashedPassword 0 0 [] (now env)])%list) /\
  (status r <> 201 ->
     users st' = users st /\ pickups st' = pickups st /\
     pledges st' = pledges st).
Proof.
  cbn zeta. destruct (Users.findOne e (users st)) as [u|] eqn:Hu.
  - rewrite (register_taken env st e pw u Hu). cbn [fst snd status body].
    split_and!.
    + split; [discriminate | intros [? _]; discriminate].
    + split; [intros _; eexists; reflexivity | reflexivity].
    + right. left. reflexivity.
    + discriminate.
    + intros _. split_and!; reflexivity.
  - rewrite (register_fresh env st e pw Hu). unfold missing.
    destruct (decide (e = EmptyString)) as [He|He];
      destruct (decide (bcrypt_hash pw 10 (salt env) = EmptyString)) as [Hh|Hh];
      cbn [app fst snd status body users pickups pledges server_error];
      (split_and!;
       [ split; [try discriminate; intros _; split_and!; auto
                | intros (_ & ? & ?); try reflexivity; contradiction]
       | split; [discriminate | intros [? [=]]]
       | first [left; reflexivity | right; right; split; reflexivity]
       | try discriminate; intros _; reflexivity
       | intros Hne; try (exfalso; apply Hne; reflexivity);
         split_and!; reflexivity ]).
Qed.

Lemma register_outcome_witness :
  status (handle (H := toy_bcrypt) env1 (PostRegister EmptyString "pw") stats_store).2
    <> 201 /\
  users (handle (H := toy_bcrypt) env1 (PostRegister EmptyString "pw") stats_store).1
    = users stats_store.
Proof.
  destruct (register_outcome (H := toy_bcrypt) env1 stats_store EmptyString
              "pw") as (H201 & _ & _ & _ & Hkeep).
  assert (Hne : status (handle (H := toy_bcrypt) env1
                          (PostRegister EmptyString "pw") stats_store).2 <> 201).
  { intros E. apply H201 in E. destruct E as (_ & E & _). apply E. reflexivity. }
  split; [exact Hne | exact (proj1 (Hkeep Hne))].
Defined.

(** ** Scheduling, completing, pledging *)

Lemma pickup_taken_Some (id : ObjectId) (ps : list Pickup.t) :
  Pickups.taken (Some id) ps = true <-> is_Some (Pickups.findById id ps).
Proof. unfold Pickups.taken. apply bool_decide_eq_true. Qed.

Lemma pickup_taken_free (client_id : option ObjectId) (ps : list Pickup.t) :
  (forall id, client_id = Some id -> Pickups.findById id ps = None) ->
  Pickups.taken client_id ps = false.
Proof.
  intros Hfree. destruct client_id as [id|]; [|reflexivity].
  unfold Pickups.taken. apply bool_decide_eq_false.
  rewrite (Hfree id eq_refl). intros [p Hp]. discriminate.
Qed.

(** X6. What scheduling does with a body, which may set [_id] and
    [createdAt] itself.  An empty [user] fails validation: 500 with the
    validator's message, and neither a pickup nor XP is written.  An [_id]
    that a stored pickup has is refused by the index: 500, nothing written.
    Otherwise the answer is 201 and exactly one pickup is appended, the one
    shown in the response: its [_id] and [createdAt] are those of the body,
    or the generated identifier and the time of the request when the body
    sets none, its status is that of the body or "Scheduled", and its user
    and materials are the body's. *)
Theorem schedule_outcome `{Bcrypt} (env : Env) (st : Store) (b : PickupBody.t) :
  let st' := (handle env (PostPickups b) st).1 in
  let r := (handle env (PostPickups b) st).2 in
  let f := PickupBody.paths b in
  let p := new_Pickup env (next_id st) b in
  let unchanged :=
    users st' = users st /\ pickups st' = pickups st /\
    pledges st' = pledges st in
  (PickupReq.user f = EmptyString ->
     r = mkResponse 500
           (JObj [("message", JStr "Server error");
                  ("error",
                   JStr "Pickup validation failed: user: Path `user` is required.")]) /\
     unchanged) /\
  (PickupReq.user f <> EmptyString ->
   forall id, PickupBody._id b = Some id ->
     is_Some (Pickups.findById id (pickups st)) ->
     status r = 500 /\
     jget "message" (body r) = Some (JStr "Server error") /\
     unchanged) /\
  (PickupReq.user f <> EmptyString ->
   (forall id, PickupBody._id b = Some id ->
      Pickups.findById id (pickups st) = None) ->
     status r = 201 /\
     jget "pickup" (body r) = Some (Pickup.toJSON p) /\
     pickups st' = (pickups st ++ [p])%list /\
     Pickup._id p = default (next_id st) (PickupBody._id b) /\
     Pickup.createdAt p = default (now env) (PickupBody.createdAt b) /\
     Pickup.status p = default "Scheduled" (PickupReq.status f) /\
     Pickup.user p = PickupReq.user f /\
     Pickup.materials p = PickupReq.materials f).
Proof.
  cbn zeta. split_and!.
  - intros He. rewrite (post_pickups_invalid env st b He).
    split_and!; reflexivity.
  - intros Hne id Hid Hstored.
    rewrite (post_pickups_refused env st b Hne)
      by (rewrite Hid; apply pickup_taken_Some, Hstored).
    split_and!; reflexivity.
  - intros Hne Hfree.
    rewrite (post_pickups_accepted env st b Hne)
      by (apply pickup_taken_free, Hfree).
    split_and!; reflexivity.
Qed.

Lemma schedule_outcome_witness :
  let paths := PickupReq.mk "ana@eco.org" None None None None None ["glass"]
                 None None in
  pickups (handle (H := toy_bcrypt) env1
             (PostPickups (PickupBody.mk (Some 1%nat) None paths))
             stats_store).1 = pickups stats_store /\
  last (pickups (handle (H := toy_bcrypt) env1
                   (PostPickups (PickupBody.mk (Some 9%nat) (Some 5) paths))
                   stats_store).1)
    = Some (Pickup.mk 9%nat "ana@eco.org" None None None None None ["glass"]
              None "Scheduled" 5) /\
  Pickup._id <$>
    last (pickups (handle (H := toy_bcrypt) env1 (PostPickups paths)
                     stats_store).1) = Some 4%nat.
Proof.
  intros paths. split_and!.
  - destruct (schedule_outcome (H := toy_bcrypt) env1 stats_store
                (PickupBody.mk (Some 1%nat) None paths)) as (_ & Hrefused & _).
    destruct (Hrefused ltac:(discriminate) 1%nat eq_refl) as (_ & _ & _ & Hps & _).
    + eexists. reflexivity.
    + exact Hps.
  - destruct (schedule_outcome (H := toy_bcrypt) env1 stats_store
                (PickupBody.mk (Some 9%nat) (Some 5) paths)) as (_ & _ & Hok).
    destruct Hok as (_ & _ & Hps & _); [discriminate | |].
    + intros id [= <-]. reflexivity.
    + rewrite Hps. reflexivity.
  - destruct (schedule_outcome (H := toy_bcrypt) env1 stats_store paths)
      as (_ & _ & Hok).
    destruct Hok as (_ & _ & Hps & _); [discriminate | discriminate |].
    rewrite Hps. reflexivity.
Defined.

(** X7. Records of an owner who is not a user are accepted: a pickup, a
    pledge or a completion whose owner email matches no user is answered as
    a success and written, and the user collection is left as it was. *)
Theorem orphans_tolerated `{Bcrypt} (env : Env) (st : Store) :
  (forall b : PickupReq.t,
     PickupReq.user b <> EmptyString ->
     Users.findOne (PickupReq.user b) (users st) = None ->
     status (handle env (PostPickups b) st).2 = 201 /\
     users (handle env (PostPickups b) st).1 = users st /\
     length (pickups (handle env (PostPickups b) st).1)
       = S (length (pickups st))) /\
  (forall b : PledgeReq.t,
     Users.findOne (PledgeReq.user b) (users st) = None ->
     status (handle env (PostPledges b) st).2 = 201 /\
     users (handle env (PostPledges b) st).1 = users st /\
     pledges (handle env (PostPledges b) st).1
       = (pledges st ++ [new_Pledge env (next_id st) b])%list) /\
  (forall (id : ObjectId) (p : Pickup.t),
     Pickups.findById id (pickups st) = Some p ->
     Users.findOne (Pickup.user p) (users st) = None ->
     status (handle env (PutComplete id) st).2 = 200 /\
     users (handle env (PutComplete id) st).1 = users st).
Proof.
  split_and!.
  - intros b Hne Hnone. rewrite (post_pickups_ok env st b Hne).
    cbn [fst snd status users pickups].
    rewrite (findOneAndUpdate_absent _ _ _ Hnone), length_app.
    split_and!; [reflexivity | reflexivity | cbn; lia].
  - intros b Hnone. rewrite post_pledges_ok. cbn [fst snd status users pledges].
    rewrite (findOneAndUpdate_absent _ _ _ Hnone). split_and!; reflexivity.
  - intros id p Hp Hnone. rewrite (complete_found env st id p Hp).
    cbn [fst snd status users].
    rewrite (findOneAndUpdate_absent _ _ _ Hnone). split; reflexivity.
Qed.

Lemma orphans_tolerated_witness :
  users (handle (H := toy_bcrypt) env1 (PutComplete 2%nat) stats_store).1
    = users stats_store /\
  users (handle (H := toy_bcrypt) env1
           (PostPledges (PledgeReq.mk "zed@eco.org" None)) stats_store).1
    = users stats_store.
Proof.
  destruct (orphans_tolerated (H := toy_bcrypt) env1 stats_store)
    as (_ & Hpledge & Hcomplete).
  split.
  - apply (Hcomplete 2%nat
             (Pickup.mk 2%nat "bo@eco.org" None None None None None
                ["steel"] None "Scheduled" 1002));
      reflexivity.
  - apply (Hpledge (PledgeReq.mk "zed@eco.org" None)). reflexivity.
Defined.

Lemma updateById_twice (id : ObjectId) (f : Pickup.t -> Pickup.t)
    (ps : list Pickup.t) :
  (forall p, Pickup._id (f p) = Pickup._id p) ->
  (forall p, f (f p) = f p) ->
  Pickups.updateById id f (Pickups.updateById id f ps)
  = Pickups.updateById id f ps.
Proof.
  intros Hid Hff. induction ps as [|q ps IH]; [reflexivity|].
  cbn [Pickups.updateById]. case_decide as E; cbn [Pickups.updateById].
  - rewrite Hid, decide_True by exact E. rewrite Hff. reflexivity.
  - rewrite decide_False by exact E. rewrite IH. reflexivity.
Qed.

(** X8. Completing an [_id] that no pickup has is answered 404 and changes
    nothing.  Completing one that exists is answered 200 with the pickup as
    updated: its status is "Completed" and its other fields are kept, every
    pickup with another [_id] is found as before, and a second completion
    leaves the pickups as the first left them. *)
Theorem complete_outcome `{Bcrypt} (env env' : Env) (st : Store) (id : ObjectId) :
  let st' := (handle env (PutComplete id) st).1 in
  let r := (handle env (PutComplete id) st).2 in
  (Pickups.findById id (pickups st) = None ->
     st' = st /\ r = mkResponse 404 (say "Pickup not found")) /\
  (forall p,
     Pickups.findById id (pickups st) = Some p ->
     let done :=
       Pickup.mk (Pickup._id p) (Pickup.user p) (Pickup.date p)
         (Pickup.location p) (Pickup.pickupType p) (Pickup.time p)
         (Pickup.phone p) (Pickup.materials p) (Pickup.notes p) "Completed"
         (Pickup.createdAt p) in
     status r = 200 /\
     jget "pickup" (body r) = Some (Pickup.toJSON done) /\
     Pickups.findById id (pickups st') = Some done /\
     (forall id', id' <> id ->
        Pickups.findById id' (pickups st') = Pickups.findById id' (pickups st)) /\
     pickups (handle env' (PutComplete id) st').1 = pickups st').
Proof.
  cbn zeta. split.
  - intros Hp. rewrite (complete_absent env st id Hp). split; reflexivity.
  - intros p Hp. rewrite (complete_found env st id p Hp).
    cbn [fst snd status body pickups]. split_and!.
    + reflexivity.
    + reflexivity.
    + rewrite findById_updateById by reflexivity. rewrite Hp. reflexivity.
    + intros id' Hne. apply findById_updateById_other; [exact Hne | reflexivity].
    + erewrite complete_found
        by (cbn [pickups]; rewrite findById_updateById by reflexivity;
            rewrite Hp; reflexivity).
      cbn [fst pickups]. apply updateById_twice; reflexivity.
Qed.

Lemma complete_outcome_witness :
  handle (H := toy_bcrypt) env1 (PutComplete 9%nat) stats_store
    = (stats_store, mkResponse 404 (say "Pickup not found")) /\
  Pickup.status <$>
    Pickups.findById 1%nat
      (pickups (handle (H := toy_bcrypt) env1 (PutComplete 1%nat)
                  stats_store).1) = Some "Completed".
Proof.
  split.
  - destruct (proj1 (complete_outcome (H := toy_bcrypt) env1 env1 stats_store
                       9%nat) eq_refl) as [Hst Hr].
    rewrite (surjective_pairing (handle env1 (PutComplete 9%nat) stats_store)).
    rewrite Hst, Hr. reflexivity.
  - destruct (proj2 (complete_outcome (H := toy_bcrypt) env1 env1 stats_store
                       1%nat)
                (Pickup.mk 1%nat "ana@eco.org" None None None None None
                   ["glass"; "paper"; "tin"] None "Scheduled" 1001) eq_refl)
      as (_ & _ & Hfound & _).
    rewrite Hfound. reflexivity.
Defined.

(** ** Pickup identifiers *)

Lemma updateById_ids (id : ObjectId) (f : Pickup.t -> Pickup.t)
    (ps : list Pickup.t) :
  (forall p, Pickup._id (f p) = Pickup._id p) ->
  Pickup._id <$> Pickups.updateById id f ps = Pickup._id <$> ps.
Proof.
  intros Hf. induction ps as [|q ps IH]; [reflexivity|].
  cbn [Pickups.updateById]. case_decide; rewrite !fmap_cons.
  - rewrite Hf. reflexivity.
  - rewrite IH. reflexivity.
Qed.

Lemma findById_None_fresh (id : ObjectId) (ps : list Pickup.t) :
  Pickups.findById id ps = None -> id ∉ Pickup._id <$> ps.
Proof.
  induction ps as [|q ps IH]; cbn [Pickups.findById].
  - intros _. apply not_elem_of_nil.
  - case_decide as E; [discriminate|]. intros Hnone.
    rewrite fmap_cons, not_elem_of_cons. split; [congruence | auto].
Qed.

Lemma pickup_taken_false (client_id : option ObjectId) (ps : list Pickup.t) :
  Pickups.taken client_id ps = false ->
  forall id, client_id = Some id -> Pickups.findById id ps = None.
Proof.
  intros Hfree id ->. unfold Pickups.taken in Hfree.
  apply bool_decide_eq_false in Hfree.
  destruct (Pickups.findById id ps) as [p|]; [|reflexivity].
  exfalso. apply Hfree. eexists. reflexivity.
Qed.

(** What a request can do to the pickup collection and the next
    identifier: nothing to the pickups; append one pickup, whose [_id] is
    the generated one or one that no stored pickup has; or set the status of
    the pickup with some identifier.  The next identifier never goes down
    and stays above an appended [_id]. *)
Lemma pickups_after `{Bcrypt} (env : Env) (req : Request) (st : Store) :
  let st' := (handle env req st).1 in
  (pickups st' = pickups st /\ (next_id st <= next_id st')%nat) \/
  (exists p, (Pickup._id p = next_id st \/
              Pickups.findById (Pickup._id p) (pickups st) = None) /\
             pickups st' = (pickups st ++ [p])%list /\
             (Pickup._id p < next_id st')%nat /\
             (next_id st <= next_id st')%nat) \/
  (exists id s, pickups st' = Pickups.updateById id (Pickup.set_status s) (pickups st) /\
                next_id st' = next_id st).
Proof.
  cbn zeta. destruct req.
  - left. register_cases env st email password;
      try (split; [reflexivity | cbn; lia]).
    destruct (missing "email" email ++ missing "password" _)%list;
      split; cbn; (reflexivity || lia).
  - left. login_cases env st email password; split; cbn; (reflexivity || lia).
  - pickups_cases env st b.
    + left. split; cbn; [reflexivity | lia].
    + left. split; cbn; [reflexivity | lia].
    + right. left. exists (new_Pickup env (next_id st) b).
      cbn [fst pickups next_id new_Pickup Pickup._id].
      destruct (PickupBody._id b) as [i|] eqn:Hid; cbn [from_option]; unfold id.
      * split_and!; [right | reflexivity | lia | lia].
        exact (pickup_taken_false _ _ Ht i eq_refl).
      * split_and!; [left; reflexivity | reflexivity | lia | lia].
  - left. run. split; [reflexivity | lia].
  - destruct (Pickups.findById id (pickups st)) as [p|] eqn:Hp.
    + right. right. rewrite (complete_found env st id p Hp).
      exists id, "Completed". split; reflexivity.
    + left. rewrite (complete_absent env st id Hp).
      split; [reflexivity | cbn; lia].
  - left. pledges_cases env st b; split; cbn; try reflexivity;
      destruct (PledgeBody._id b); lia.
  - left. run. split; [reflexivity | lia].
  - left. destruct (Users.findOne userEmail (users st)) as [u|] eqn:Hu.
    + rewrite (stats_found env st userEmail u Hu).
      case_bool_decide; split; cbn; (reflexivity || lia).
    + run. rewrite Hu. split; cbn; [reflexivity | lia].
  - left. run. split; [reflexivity | lia].
  - left. run. split; [reflexivity | lia].
  - left. run. split; [reflexivity | lia].
Qed.

Lemma handle_ids_fresh `{Bcrypt} (env : Env) (req : Request) (st : Store) :
  ids_fresh st -> ids_fresh (handle env req st).1.
Proof.
  intros [Hlt Hnd]. unfold ids_fresh.
  destruct (pickups_after env req st)
    as [[-> Hle] | [(p & Hid & -> & Hp & Hle) | (id & s & -> & ->)]].
  - split; [|exact Hnd]. eapply Forall_impl; [exact Hlt|].
    intros q Hq. cbn beta in *. lia.
  - split.
    + apply Forall_app. split.
      * eapply Forall_impl; [exact Hlt|]. intros q Hq. cbn beta in *. lia.
      * constructor; [exact Hp | constructor].
    + rewrite fmap_app. apply NoDup_app. split_and!.
      * exact Hnd.
      * intros x Hx Hin. apply list_elem_of_singleton in Hin. subst x.
        destruct Hid as [Hid | Hid].
        -- apply list_elem_of_fmap in Hx as (q & Hq & Hin).
           rewrite Forall_forall in Hlt. specialize (Hlt q Hin).
           cbn beta in Hlt. lia.
        -- exact (findById_None_fresh _ _ Hid Hx).
      * apply NoDup_singleton.
  - split.
    + rewrite Forall_forall in Hlt. apply Forall_forall. intros q Hq.
      apply list_elem_of_fmap_2 with (f := Pickup._id) in Hq.
      rewrite updateById_ids in Hq by reflexivity.
      apply list_elem_of_fmap in Hq as (q' & -> & Hin). exact (Hlt q' Hin).
    + rewrite updateById_ids by reflexivity. exact Hnd.
Qed.

Lemma serve_ids_fresh `{Bcrypt} (reqs : list (Env * Request)) (st : Store) :
  ids_fresh st -> ids_fresh (serve reqs st).
Proof.
  revert st. induction reqs as [|[env req] reqs IH]; intros st Hf; [exact Hf|].
  cbn [serve]. apply IH, handle_ids_fresh, Hf.
Qed.

Lemma findById_unique (id : ObjectId) (ps : list Pickup.t) (p : Pickup.t) :
  NoDup (Pickup._id <$> ps) -> p ∈ ps -> Pickup._id p = id ->
  Pickups.findById id ps = Some p.
Proof.
  intros Hnd Hin Hid.
  destruct (Pickups.findById id ps) as [q|] eqn:Hq.
  - apply findById_elem_of in Hq as [Hq Hqid]. f_equal.
    apply (NoDup_fmap_eq Pickup._id ps); [assumption .. | congruence].
  - exfalso. clear Hnd. induction ps as [|r ps IH].
    + apply elem_of_nil in Hin. exact Hin.
    + cbn [Pickups.findById] in Hq. case_decide as E; [discriminate|].
      apply elem_of_cons in Hin as [-> | Hin]; [congruence | auto].
Qed.

(** X9. Pickup identifiers identify.  The index refuses a body whose [_id]
    a stored pickup has, so that request writes no pickup; an identifier the
    server generates is above every one stored.  Every request therefore
    keeps the stored pickups' [_id]s pairwise different, in every store
    reached from the empty one they are, and then looking up the [_id] of a
    stored pickup finds that pickup. *)
Theorem pickup_ids_identify `{Bcrypt} :
  (forall env st (b : PickupBody.t) id,
     PickupBody._id b = Some id ->
     is_Some (Pickups.findById id (pickups st)) ->
     status (handle env (PostPickups b) st).2 = 500 /\
     pickups (handle env (PostPickups b) st).1 = pickups st) /\
  (forall env req st, ids_fresh st -> ids_fresh (handle env req st).1) /\
  (forall reqs, NoDup (Pickup._id <$> pickups (serve reqs empty_store))) /\
  (forall st p,
     NoDup (Pickup._id <$> pickups st) -> p ∈ pickups st ->
     Pickups.findById (Pickup._id p) (pickups st) = Some p).
Proof.
  split_and!.
  - intros env st b id Hid Hstored.
    assert (Ht : Pickups.taken (PickupBody._id b) (pickups st) = true).
    { rewrite Hid. unfold Pickups.taken. apply bool_decide_eq_true, Hstored. }
    destruct (decide (PickupReq.user (PickupBody.paths b) = EmptyString))
      as [He|He].
    + rewrite (post_pickups_invalid env st b He). split; reflexivity.
    + rewrite (post_pickups_refused env st b He Ht). split; reflexivity.
  - intros env req st. apply handle_ids_fresh.
  - intros reqs.
    assert (Hfresh : ids_fresh (serve reqs empty_store))
      by (apply serve_ids_fresh; split; constructor).
    exact (proj2 Hfresh).
  - intros st p Hnd Hin. apply findById_unique; [assumption .. | reflexivity].
Qed.

Lemma pickup_ids_identify_witness :
  let glass := PickupReq.mk "ana@eco.org" None None None None None ["glass"]
                 None None in
  let st :=
    serve (H := toy_bcrypt)
      [(env1, PostPickups (PickupBody.mk (Some 7%nat) None glass));
       (env1, PostPickups glass);
       (env1, PostPickups (PickupBody.mk (Some 7%nat) (Some 3) glass))]
      empty_store in
  Pickup._id <$> pickups st = [7%nat; 8%nat] /\
  NoDup (Pickup._id <$> pickups st) /\
  ids_fresh (handle (H := toy_bcrypt) env1 (PutComplete 7%nat) stats_store).1.
Proof.
  intros glass st.
  destruct (pickup_ids_identify (H := toy_bcrypt)) as (_ & Hstep & Hreach & _).
  split_and!.
  - reflexivity.
  - apply Hreach.
  - apply Hstep. split; [repeat constructor; cbn; lia|].
    cbn. repeat constructor; rewrite ?elem_of_cons, ?elem_of_nil; intuition lia.
Defined.

(** X10. A pickup can be completed under the [_id] its scheduling response
    shows: after scheduling for a user and completing that [_id], the
    completion is answered 200, the pickup is stored as "Completed", and the
    owner has 30 XP more and a streak one longer. *)
Theorem schedule_then_complete `{Bcrypt} (env env' : Env) (st : Store)
    (b : PickupReq.t) (u : User.t) :
  ids_fresh st ->
  PickupReq.user b <> EmptyString ->
  Users.findOne (PickupReq.user b) (users st) = Some u ->
  let st1 := (handle env (PostPickups b) st).1 in
  let id := next_id st in
  jget "_id" <$> jget "pickup" (body (handle env (PostPickups b) st).2)
    = Some (Some (jint (Z.of_nat id))) /\
  status (handle env' (PutComplete id) st1).2 = 200 /\
  Pickups.findById id (pickups (handle env' (PutComplete id) st1).1)
    = Some (Pickup.set_status "Completed" (new_Pickup env id b)) /\
  Users.findOne (PickupReq.user b)
    (users (handle env' (PutComplete id) st1).1)
    = Some (User.mk (User._id u) (User.email u) (User.password u)
              (User.xp u + 30) (User.streak u + 1) (User.badges u)
              (User.createdAt u)).
Proof.
  intros [Hlt _] Hne Hu st1 id. subst st1 id.
  rewrite (post_pickups_ok env st b Hne). cbn [fst snd body].
  assert (Hp : Pickups.findById (next_id st)
                 (pickups st ++ [new_Pickup env (next_id st) b])
               = Some (new_Pickup env (next_id st) b)).
  { rewrite findById_app, (findById_fresh _ _ Hlt).
    cbn [Pickups.findById new_Pickup Pickup._id].
    rewrite decide_True by reflexivity. reflexivity. }
  split; [reflexivity|].
  erewrite complete_found by (cbn [pickups]; exact Hp).
  cbn [fst snd status users pickups]. split_and!.
  - reflexivity.
  - rewrite findById_updateById by reflexivity. rewrite Hp. reflexivity.
  - cbn [new_Pickup Pickup.user].
    rewrite findOneAndUpdate_same by reflexivity.
    rewrite findOneAndUpdate_same by reflexivity. rewrite Hu.
    destruct u. unfold User.inc_streak, User.inc_xp. cbn.
    do 2 f_equal; lia.
Qed.

Lemma schedule_then_complete_witness :
  let b := PickupReq.mk "ana@eco.org" None None None None None ["glass"]
             None None in
  let st1 := (handle (H := toy_bcrypt) env1 (PostPickups b) stats_store).1 in
  Users.findOne "ana@eco.org"
    (users (handle (H := toy_bcrypt) env1 (PutComplete 4%nat) st1).1)
    = Some (User.mk 0%nat "ana@eco.org" "$2a$10$pw" 180 3 [] 1000).
Proof.
  intros b st1.
  destruct (schedule_then_complete (H := toy_bcrypt) env1 env1 stats_store b
              (User.mk 0%nat "ana@eco.org" "$2a$10$pw" 150 2 [] 1000))
    as (_ & _ & _ & Hxp).
  - split; [repeat constructor; cbn; lia|].
    cbn. repeat constructor; rewrite ?elem_of_cons, ?elem_of_nil; intuition lia.
  - discriminate.
  - reflexivity.
  - exact Hxp.
Defined.

(** ** Listings *)

#[local] Instance pickup_newer_total : Total Pickups.newer.
Proof. intros a b. unfold Pickups.newer. lia. Qed.

#[local] Instance pickup_newer_trans : Transitive Pickups.newer.
Proof. intros a b c. unfold Pickups.newer. lia. Qed.

#[local] Instance pledge_newer_total : Total Pledges.newer.
Proof. intros a b. unfold Pledges.newer. lia. Qed.

#[local] Instance pledge_newer_trans : Transitive Pledges.newer.
Proof. intros a b c. unfold Pledges.newer. lia. Qed.

(** X11. The pickup listing of an email answers 200 with exactly the stored
    pickups whose [user] is that email, each as often as it is stored, newest
    first; the store is not changed. *)
Theorem pickups_listing `{Bcrypt} (env : Env) (st : Store) (userEmail : string) :
  exists listed : list Pickup.t,
    handle env (GetPickups userEmail) st =
      (st, mkResponse 200 (JArr (Pickup.toJSON <$> listed))) /\
    listed ≡ₚ filter (fun p => Pickup.user p = userEmail) (pickups st) /\
    (forall p, p ∈ listed <-> p ∈ pickups st /\ Pickup.user p = userEmail) /\
    StronglySorted (fun p q => Pickup.createdAt q <= Pickup.createdAt p) listed.
Proof.
  exists (merge_sort Pickups.newer (Pickups.find userEmail (pickups st))).
  assert (Hperm : merge_sort Pickups.newer (Pickups.find userEmail (pickups st))
                  ≡ₚ filter (fun p => Pickup.user p = userEmail) (pickups st))
    by apply merge_sort_Permutation.
  split_and!.
  - reflexivity.
  - exact Hperm.
  - intros p. rewrite Hperm, list_elem_of_filter. tauto.
  - apply (StronglySorted_merge_sort Pickups.newer).
Qed.

(** X12. The pledge listing answers 200 with the twenty newest pledges, or
    all of them when there are fewer, newest first: what is shown and what
    is left out together are the stored pledges, and nothing left out is
    newer than a pledge shown. *)
Theorem pledges_listing `{Bcrypt} (env : Env) (st : Store) :
  exists shown rest : list Pledge.t,
    handle env GetPledges st =
      (st, mkResponse 200 (JArr (Pledge.toJSON <$> shown))) /\
    shown ++ rest ≡ₚ pledges st /\
    length shown = Nat.min 20 (length (pledges st)) /\
    StronglySorted (fun p q => Pledge.createdAt q <= Pledge.createdAt p) shown /\
    (forall p q, p ∈ shown -> q ∈ rest ->
       Pledge.createdAt q <= Pledge.createdAt p).
Proof.
  pose (sorted := merge_sort Pledges.newer (pledges st)).
  assert (Hperm : sorted ≡ₚ pledges st) by apply merge_sort_Permutation.
  assert (Hsorted : StronglySorted Pledges.newer
                      (take 20 sorted ++ drop 20 sorted)).
  { rewrite take_drop. apply StronglySorted_merge_sort; apply _. }
  apply StronglySorted_app in Hsorted as (Hcross & Htop & _).
  exists (take 20 sorted), (drop 20 sorted). split_and!.
  - reflexivity.
  - rewrite take_drop. exact Hperm.
  - rewrite length_take, Hperm. reflexivity.
  - exact Htop.
  - exact Hcross.
Qed.

Lemma pledges_listing_witness :
  exists shown rest : list Pledge.t,
    (handle (H := toy_bcrypt) env1 GetPledges pledge_store).2 =
      mkResponse 200 (JArr (Pledge.toJSON <$> shown)) /\
    length shown = 20%nat /\ length rest = 2%nat /\
    (forall p q, p ∈ shown -> q ∈ rest ->
       Pledge.createdAt q <= Pledge.createdAt p).
Proof.
  destruct (pledges_listing (H := toy_bcrypt) env1 pledge_store)
    as (shown & rest & Hres & Hperm & Hlen & _ & Hcut).
  exists shown, rest. split_and!.
  - rewrite Hres. reflexivity.
  - rewrite Hlen. reflexivity.
  - apply Permutation_length in Hperm. rewrite length_app, Hlen in Hperm.
    cbn in Hperm. lia.
  - exact Hcut.
Defined.

(** ** Statistics, again *)

(** X13. Asking for the statistics twice is asking once: the second request
    gets the response of the first and leaves the store as the first left
    it, whether or not the user exists and whether or not the first request
    wrote badges. *)
Theorem stats_idempotent `{Bcrypt} (env env' : Env) (st : Store) (e : string) :
  handle env' (GetStats e) (handle env (GetStats e) st).1 =
  handle env (GetStats e) st.
Proof.
  destruct (Users.findOne e (users st)) as [u|] eqn:Hu.
  - rewrite (stats_found env st e u Hu).
    case_bool_decide as Hlt; cbn [fst].
    + rewrite (stats_found env' _ e (User.set_badges (deriveBadges (User.xp u)) u)).
      * cbn [users pickups set_users User.set_badges User.xp User.badges
               User.streak].
        rewrite bool_decide_eq_false_2 by lia. reflexivity.
      * cbn [users set_users].
        rewrite findOneAndUpdate_same by reflexivity. rewrite Hu. reflexivity.
    + rewrite (stats_found env' st e u Hu).
      rewrite bool_decide_eq_false_2 by exact Hlt. reflexivity.
  - assert (E : forall env0, handle env0 (GetStats e) st =
                  (st, server_error
                         (TypeError
                            "Cannot read properties of null (reading 'xp')"))).
    { intros env0. run. rewrite Hu. reflexivity. }
    rewrite (E env). cbn [fst]. apply E.
Qed.

(** X14. The summary fields of a stats response: [xpEarned] and [streakDays]
    are the user's stored XP and streak, [totalPickups] is the number of the
    user's pickups, and [badgesEarned] names the badges the XP earns now,
    joined by a comma and a space, or "None" below 100 XP, whatever badges
    are stored. *)
Theorem stats_summary `{Bcrypt} (env : Env) (st : Store) (e : string)
    (u : User.t) :
  Users.findOne e (users st) = Some u ->
  let r := (handle env (GetStats e) st).2 in
  status r = 200 /\
  jget "xpEarned" (body r) = Some (jint (User.xp u)) /\
  jget "streakDays" (body r) = Some (jint (User.streak u)) /\
  jget "totalPickups" (body r) =
    Some (jint (Z.of_nat
                  (length (filter (fun p => Pickup.user p = e) (pickups st))))) /\
  jget "badgesEarned" (body r) =
    Some (JStr
      (if bool_decide (User.xp u < 100) then "None"
       else if bool_decide (User.xp u < 200) then "Plastic Buster"
       else if bool_decide (User.xp u < 500) then "Plastic Buster, Paper Saver"
       else "Plastic Buster, Paper Saver, Eco Warrior")).
Proof.
  intros Hu r. subst r. rewrite (stats_found env st e u Hu).
  cbn [snd status body]. split_and!; try reflexivity.
  unfold deriveBadges.
  repeat case_bool_decide; cbn [app length] in *; try lia; reflexivity.
Qed.

Lemma stats_summary_witness :
  jget "badgesEarned"
    (body (handle (H := toy_bcrypt) env1 (GetStats "cy@eco.org")
             tied_store).2)
    = Some (JStr "Plastic Buster, Paper Saver, Eco Warrior") /\
  jget "badgesEarned"
    (body (handle (H := toy_bcrypt) env1 (GetStats "ana@eco.org")
             stats_store).2)
    = Some (JStr "Plastic Buster").
Proof.
  split.
  - apply (stats_summary (H := toy_bcrypt) env1 tied_store "cy@eco.org"
             (User.mk 7%nat "cy@eco.org" "$2a$10$pw" 500 9
                ["Early Bird"; "Paper Saver"; "Founder"] 1000) eq_refl).
  - apply (stats_summary (H := toy_bcrypt) env1 stats_store "ana@eco.org"
             (User.mk 0%nat "ana@eco.org" "$2a$10$pw" 150 2 [] 1000) eq_refl).
Defined.

(** X15. More XP never loses a badge: the badges of a lower XP are an
    initial part of the badges of a higher XP, and there are never more than
    three. *)
Theorem deriveBadges_monotone (xp xp' : Z) :
  xp <= xp' ->
  deriveBadges xp `prefix_of` deriveBadges xp' /\
  (length (deriveBadges xp') <= 3)%nat.
Proof.
  intros Hle. unfold deriveBadges.
  repeat case_bool_decide; try lia;
    (split; [eexists; reflexivity | cbn; lia]).
Qed.

Lemma deriveBadges_monotone_witness :
  deriveBadges 120 `prefix_of` deriveBadges 480.
Proof. apply (deriveBadges_monotone 120 480). lia. Defined.

(** ** Carbon figures *)

Lemma Math_round_mono (x y : Q) : (x <= y)%Q -> Math_round x <= Math_round y.
Proof.
  intros Hle. unfold Math_round. apply Qfloor_resp_le.
  apply Qplus_le_compat; [exact Hle | apply Qle_refl].
Qed.

Lemma count_materials_cons (p : Pickup.t) (ps : list Pickup.t) :
  count_materials (p :: ps) =
  Z.of_nat (length (Pickup.materials p)) + count_materials ps.
Proof.
  unfold count_materials. cbn [fold_left].
  rewrite (count_materials_from ps (0 + _)), (count_materials_from ps 0). lia.
Qed.

Lemma count_materials_app (ps qs : list Pickup.t) :
  count_materials (ps ++ qs) = count_materials ps + count_materials qs.
Proof.
  induction ps as [|p ps IH]; [cbn; unfold count_materials; cbn; lia|].
  cbn [app]. rewrite !count_materials_cons, IH. lia.
Qed.

Lemma count_materials_nonneg (ps : list Pickup.t) : 0 <= count_materials ps.
Proof. rewrite count_materials_sum. lia. Qed.

Lemma count_materials_find (e : string) (ps : list Pickup.t) :
  count_materials (Pickups.find e ps) <= count_materials ps.
Proof.
  unfold Pickups.find. induction ps as [|p ps IH]; [reflexivity|].
  rewrite filter_cons. case_decide; rewrite !count_materials_cons; lia.
Qed.

Lemma count_materials_updateById (id : ObjectId) (s : string)
    (ps : list Pickup.t) :
  count_materials (Pickups.updateById id (Pickup.set_status s) ps)
  = count_materials ps.
Proof.
  induction ps as [|p ps IH]; [reflexivity|].
  cbn [Pickups.updateById]. case_decide; rewrite !count_materials_cons.
  - reflexivity.
  - rewrite IH. reflexivity.
Qed.

Lemma carbon_mono (m n : Z) :
  m <= n ->
  Math_round (inject_Z m * (1 # 2) * (5 # 2))
  <= Math_round (inject_Z n * (1 # 2) * (5 # 2)).
Proof.
  intros Hle. apply Math_round_mono.
  apply Qmult_le_compat_r; [|discriminate].
  apply Qmult_le_compat_r; [|discriminate].
  rewrite <- Zle_Qle. exact Hle.
Qed.

Lemma int_field_jint (k : string) (r : Response) (z : Z) :
  jget k (body r) = Some (jint z) -> int_field k r = Some z.
Proof.
  intros E. unfold int_field. rewrite E. unfold jint. rewrite Qfloor_Z.
  reflexivity.
Qed.

Lemma goal_figure `{Bcrypt} (env : Env) (st : Store) :
  int_field "totalCarbon" (handle env GetGoal st).2 =
  Some (Math_round (inject_Z (count_materials (pickups st)) * (1 # 2) * (5 # 2))).
Proof. apply int_field_jint. reflexivity. Qed.

(** X16. A user's carbon offset is a share of the community's: the
    [carbonOffset] of a user's statistics is never more than the
    [totalCarbon] of the community goal over the same store. *)
Theorem share_of_goal `{Bcrypt} (env env' : Env) (st : Store) (e : string)
    (u : User.t) :
  Users.findOne e (users st) = Some u ->
  exists mine all : Z,
    int_field "carbonOffset" (handle env (GetStats e) st).2 = Some mine /\
    int_field "totalCarbon" (handle env' GetGoal st).2 = Some all /\
    0 <= mine <= all.
Proof.
  intros Hu. rewrite (stats_found env st e u Hu), goal_figure.
  eexists _, _. split; [apply int_field_jint; reflexivity|].
  split; [reflexivity|]. unfold carbonOffset, totalWeight. split.
  - change 0 with (Math_round (inject_Z 0 * (1 # 2) * (5 # 2))).
    apply Math_round_mono.
    apply Qmult_le_compat_r; [|discriminate].
    apply Qmult_le_compat_r; [|discriminate].
    rewrite <- Zle_Qle. apply count_materials_nonneg.
  - apply carbon_mono, count_materials_find.
Qed.

Lemma share_of_goal_witness :
  exists mine all : Z,
    int_field "carbonOffset"
      (handle (H := toy_bcrypt) env1 (GetStats "ana@eco.org") stats_store).2
      = Some mine /\
    int_field "totalCarbon"
      (handle (H := toy_bcrypt) env1 GetGoal stats_store).2 = Some all /\
    mine <= all.
Proof.
  destruct (share_of_goal (H := toy_bcrypt) env1 env1 stats_store
              "ana@eco.org"
              (User.mk 0%nat "ana@eco.org" "$2a$10$pw" 150 2 [] 1000) eq_refl)
    as (mine & all & Hmine & Hall & _ & Hle).
  exists mine, all. split_and!; assumption.
Defined.

(** X17. No request lowers the community goal: pickups are never removed and
    their materials never changed, so the [totalCarbon] after any request is
    at least what it was before. *)
Theorem goal_never_decreases `{Bcrypt} (env env' : Env) (req : Request)
    (st : Store) :
  exists before after : Z,
    int_field "totalCarbon" (handle env' GetGoal st).2 = Some before /\
    int_field "totalCarbon" (handle env' GetGoal (handle env req st).1).2
      = Some after /\
    before <= after.
Proof.
  rewrite !goal_figure. eexists _, _. split; [reflexivity|].
  split; [reflexivity|]. apply carbon_mono.
  destruct (pickups_after env req st)
    as [[-> _] | [(p & _ & -> & _) | (id & s & -> & _)]].
  - reflexivity.
  - rewrite count_materials_app.
    pose proof (count_materials_nonneg [p]). lia.
  - rewrite count_materials_updateById. reflexivity.
Qed.

(** X18. Scheduling shows in the statistics: after a user schedules a pickup
    of [k] materials, that user's [itemsRecycled] is [k] more, their
    [totalPickups] one more and their [xpEarned] ten more than before. *)
Theorem schedule_shows_in_stats `{Bcrypt} (env env' : Env) (st : Store)
    (b : PickupReq.t) (u : User.t) :
  PickupReq.user b <> EmptyString ->
  Users.findOne (PickupReq.user b) (users st) = Some u ->
  let e := PickupReq.user b in
  let before := (handle env' (GetStats e) st).2 in
  let after := (handle env' (GetStats e) (handle env (PostPickups b) st).1).2 in
  exists items pickups xp : Z,
    int_field "itemsRecycled" before = Some items /\
    int_field "totalPickups" before = Some pickups /\
    int_field "xpEarned" before = Some xp /\
    int_field "itemsRecycled" after
      = Some (items + Z.of_nat (length (PickupReq.materials b))) /\
    int_field "totalPickups" after = Some (pickups + 1) /\
    int_field "xpEarned" after = Some (xp + 10).
Proof.
  intros Hne Hu e before after. subst e before after.
  rewrite (stats_found env' st _ u Hu).
  rewrite (post_pickups_ok env st b Hne). cbn [fst].
  rewrite (stats_found env' _ _ (User.inc_xp 10 u))
    by (cbn [users]; rewrite findOneAndUpdate_same by reflexivity;
        rewrite Hu; reflexivity).
  cbn [snd pickups].
  assert (Hfind : Pickups.find (PickupReq.user b)
                    (pickups st ++ [new_Pickup env (next_id st) b])
                  = (Pickups.find (PickupReq.user b) (pickups st)
                     ++ [new_Pickup env (next_id st) b])%list).
  { unfold Pickups.find. rewrite filter_app, filter_cons, filter_nil.
    rewrite decide_True by reflexivity. reflexivity. }
  rewrite Hfind, count_materials_app, length_app.
  eexists _, _, _.
  split_and!; try (apply int_field_jint; reflexivity);
    apply int_field_jint; cbn [body jget jfield];
    repeat (rewrite decide_False by discriminate);
    rewrite decide_True by reflexivity; do 2 f_equal.
  all: rewrite ?(count_materials_cons _ []);
    cbn [length new_Pickup Pickup.materials User.inc_xp User.xp];
    unfold count_materials; cbn [fold_left]; lia.
Qed.

Lemma schedule_shows_in_stats_witness :
  let b := PickupReq.mk "ana@eco.org" None None None None None
             ["glass"; "tin"] None None in
  int_field "itemsRecycled"
    (handle (H := toy_bcrypt) env1 (GetStats "ana@eco.org")
       (handle (H := toy_bcrypt) env1 (PostPickups b) stats_store).1).2
    = Some 7.
Proof.
  intros b.
  destruct (schedule_shows_in_stats (H := toy_bcrypt) env1 env1 stats_store b
              (User.mk 0%nat "ana@eco.org" "$2a$10$pw" 150 2 [] 1000))
    as (items & pickups & xp & Hbefore & _ & _ & Hafter & _).
  - discriminate.
  - reflexivity.
  - assert (E : Some items = Some 5) by (rewrite <- Hbefore; reflexivity).
    injection E as ->. etransitivity; [exact Hafter | reflexivity].
Defined.

(** ** The head of the leaderboard *)

(** X19. The first entry of the leaderboard has the most XP of all users,
    every entry is the projection of a stored user, and with at most ten
    users every user has an entry. *)
Theorem leaderboard_leader `{Bcrypt} (env : Env) (st : Store) :
  exists top : list Leader.t,
    body (handle env GetLeaderboard st).2 = JArr (Leader.toJSON <$> top) /\
    (forall u, u ∈ users st ->
       exists first, head top = Some first /\ User.xp u <= Leader.xp first) /\
    (forall a, a ∈ top -> exists u, u ∈ users st /\ a = Leader.project u) /\
    ((length (users st) <= 10)%nat ->
     forall u, u ∈ users st -> Leader.project u ∈ top).
Proof.
  pose (sorted := merge_sort Leader.higher (Leader.project <$> users st)).
  assert (Hperm : sorted ≡ₚ Leader.project <$> users st)
    by apply merge_sort_Permutation.
  assert (Hsorted : StronglySorted Leader.higher sorted)
    by (apply StronglySorted_merge_sort; apply _).
  exists (take 10 sorted). split_and!.
  - reflexivity.
  - intros u Hin.
    assert (Hp : Leader.project u ∈ sorted)
      by (rewrite Hperm; apply list_elem_of_fmap_2; exact Hin).
    destruct sorted as [|a s]; [apply elem_of_nil in Hp; contradiction|].
    exists a. split; [reflexivity|].
    apply StronglySorted_cons in Hsorted as [Hall _].
    apply elem_of_cons in Hp as [<- | Hp]; [cbn; lia|].
    rewrite Forall_forall in Hall. exact (Hall _ Hp).
  - intros a Hin. apply subseteq_take in Hin. rewrite Hperm in Hin.
    apply list_elem_of_fmap in Hin as (u & -> & Hu). exists u. split; auto.
  - intros Hlen u Hin. rewrite take_ge.
    + rewrite Hperm. apply list_elem_of_fmap_2. exact Hin.
    + rewrite Hperm, length_fmap. exact Hlen.
Qed.

Lemma leaderboard_leader_witness :
  exists top : list Leader.t,
    body (handle (H := toy_bcrypt) env1 GetLeaderboard stats_store).2
      = JArr (Leader.toJSON <$> top) /\
    Leader.project (User.mk 0%nat "ana@eco.org" "$2a$10$pw" 150 2 [] 1000)
      ∈ top.
Proof.
  destruct (leaderboard_leader (H := toy_bcrypt) env1 stats_store)
    as (top & Hbody & _ & _ & Hall).
  exists top. split; [exact Hbody|].
  apply Hall; [cbn; lia | left].
Defined.
